(** * AytchMCP calculator tool: a shallow embedding of
      [src/aytchmcp/tools/calculator.py] and the properties of its
      sanitizer, identifier validation, evaluation namespace and result
      formatting, with the registry of [src/aytchmcp/tools/__init__.py]
      that serves the tool.

    Python [str] values are modelled as Rocq strings, read as sequences of
    code points below 256 (Latin-1); the [re] classes [\d], [\s] and [\w]
    are the Unicode classes of Python 3 restricted to that range.  Python
    [int] is [Z]; Python [float] is the primitive binary64 [float]. *)

From Stdlib Require Import ZArith Lia List Ascii String Bool DecimalString.
From Stdlib Require Import Floats.PrimFloat Floats.SpecFloat Floats.FloatOps.
From stdpp Require Import gmap strings.

Local Open Scope string_scope.
Local Open Scope Z_scope.

(** ** Characters and the classes of Python's [re] module *)

Module Char.

Definition code (c : ascii) : N := N_of_ascii c.

Definition between (lo hi : N) (c : ascii) : bool :=
  ((lo <=? code c) && (code c <=? hi))%N.

Definition is_code (k : N) (c : ascii) : bool := (code c =? k)%N.

(** [0-9] *)
Definition ascii_digit (c : ascii) : bool := between 48 57 c.

(** [a-zA-Z_] *)
Definition ident_start (c : ascii) : bool :=
  between 97 122 c || between 65 90 c || is_code 95 c.

(** [a-zA-Z0-9_] *)
Definition ident_part (c : ascii) : bool :=
  between 97 122 c || between 65 90 c || ascii_digit c || is_code 95 c.

(** [\d] on [str] patterns: the decimal digits (category Nd); below
    code point 256 these are 0..9 only. *)
Definition re_digit (c : ascii) : bool := ascii_digit c.

(** [\s] on [str] patterns: TAB LF VT FF CR, the separators 0x1C..0x1F,
    SPACE, NEL (0x85) and NBSP (0xA0). *)
Definition re_space (c : ascii) : bool :=
  between 9 13 c || between 28 31 c || is_code 32 c || is_code 133 c || is_code 160 c.

(** [\w] on [str] patterns: alphanumerics ([str.isalnum]) and the
    underscore.  Above 127 these are the Latin-1 letters and the
    numeric characters (superscripts and vulgar fractions). *)
Definition re_word (c : ascii) : bool :=
  ident_part c
  || is_code 170 c || is_code 178 c || is_code 179 c || is_code 181 c || is_code 185 c || is_code 186 c
  || between 188 190 c || between 192 214 c || between 216 246 c
  || between 248 255 c.

(** one of the characters of the string [set] *)
Fixpoint one_of (set : string) (c : ascii) : bool :=
  match set with
  | EmptyString => false
  | String d rest => Ascii.eqb c d || one_of rest c
  end.

End Char.

(** ** String primitives used by the module *)

(** [all_chars p s]: every character of [s] satisfies [p]. *)
Fixpoint all_chars (p : ascii -> bool) (s : string) : bool :=
  match s with
  | EmptyString => true
  | String c rest => p c && all_chars p rest
  end.

(** [re.sub(r'[^...]', '', s)] for a negated character class whose
    complement is [keep]: every character outside [keep] is deleted. *)
Fixpoint re_sub_delete (keep : ascii -> bool) (s : string) : string :=
  match s with
  | EmptyString => EmptyString
  | String c rest =>
      if keep c then String c (re_sub_delete keep rest)
      else re_sub_delete keep rest
  end.

(** [s.replace(old, new)] where [old] is a one-character string. *)
Fixpoint str_replace (old : ascii) (new : string) (s : string) : string :=
  match s with
  | EmptyString => EmptyString
  | String c rest =>
      if Ascii.eqb c old then new +:+ str_replace old new rest
      else String c (str_replace old new rest)
  end.

(** ** The sanitizer *)

(** The class [[0-9+\-*/().,%\s\w]] whose complement line 159 deletes. *)
Definition clean_keep (c : ascii) : bool :=
  Char.ascii_digit c || Char.one_of "+-*/().,%" c
  || Char.re_space c || Char.re_word c.

Definition _clean_expression (expression : string) : string :=
  let expression := re_sub_delete clean_keep expression in
  let expression := str_replace "%" "/100*" expression in
  let expression := str_replace "^" "**" expression in
  expression.

(** What survives the sanitizer: kept characters other than [%]. *)
Definition clean_out (c : ascii) : bool :=
  clean_keep c && negb (Ascii.eqb c "%").


(** ** Python objects, exceptions and outcomes *)

(** The objects the tool's code tells apart.  [VBuiltin m f] is the
    built-in function [f] of module [m]; [VEmptyDict] is [{}] (the value
    bound to [__builtins__]); [VObj d] is any other object, with [d] the
    text [str()] gives for it. *)
Inductive value :=
| VInt (z : Z)
| VFloat (f : float)
| VBool (b : bool)
| VStr (s : string)
| VBuiltin (module name : string)
| VEmptyDict
| VObj (descr : string).

(** Exception classes.  [SystemExit], [KeyboardInterrupt] and
    [GeneratorExit] derive from [BaseException] and not from
    [Exception]; the others are subclasses of [Exception]. *)
Inductive exn_class :=
| ValueError | TypeError | NameError | AttributeError | SyntaxError
| ZeroDivisionError | OverflowError | ValidationError
| NotModelled
| OtherException (name : string)
| SystemExit | KeyboardInterrupt | GeneratorExit.

(** [issubclass(c, Exception)]: what [except Exception] catches. *)
Definition is_exception (c : exn_class) : bool :=
  match c with
  | SystemExit | KeyboardInterrupt | GeneratorExit => false
  | _ => true
  end.

(** An exception object: its class and [str(e)]. *)
Record exn := Exn { exn_class_of : exn_class; exn_str : string }.

(** A call either returns or raises. *)
Inductive outcome (A : Type) :=
| Returns (a : A)
| Raises (e : exn).
Arguments Returns {A} a.
Arguments Raises {A} e.

#[global] Instance outcome_ret : MRet outcome := fun A a => Returns a.
#[global] Instance outcome_bind : MBind outcome := fun A B k m =>
  match m with
  | Returns a => k a
  | Raises e => Raises e
  end.

(** ** Numbers *)

Module Num.

Local Open Scope Z_scope.

(** Decimal text of an integer, as [str(int)] writes it. *)
Definition str_Z (z : Z) : string :=
  NilZero.string_of_int (Z.to_int z).

(** Number of decimal digits of [|z|] (1 for 0). *)
Definition decimal_digits (z : Z) : nat :=
  String.length (NilZero.string_of_uint (N.to_uint (Z.abs_N z))).

(** Nearest integer to [a / b], ties to even, for [0 <= a] and [0 < b]. *)
Definition div_half_even (a b : Z) : Z :=
  let q := a / b in
  let r := a mod b in
  match 2 * r ?= b with
  | Lt => q
  | Gt => q + 1
  | Eq => if Z.even q then q else q + 1
  end.

(** Sign, mantissa and exponent of a finite non-zero float:
    [|f| = m * 2^e]. *)
Definition SF_of_Z (z : Z) : spec_float :=
  match z with
  | Z0 => S754_zero false
  | Zpos p => S754_finite false p 0
  | Zneg p => S754_finite true p 0
  end.

(** The binary64 value nearest to [a / b] (ties to even); [b <> 0].
    Both integer true division and the reading of decimal literals
    are correctly rounded. *)
Definition SF_ratio (a b : Z) : spec_float :=
  SFdiv prec emax (SF_of_Z a) (SF_of_Z b).

Definition is_inf (x : spec_float) : bool :=
  match x with S754_infinity _ => true | _ => false end.

(** [float(z)]: nearest binary64, [OverflowError] beyond the range. *)
Definition float_of_Z (z : Z) : outcome float :=
  let x := binary_normalize prec emax z 0 false in
  if is_inf x
  then Raises (Exn OverflowError "int too large to convert to float")
  else Returns (SF2Prim x).

(** [a / b] on integers. *)
Definition int_truediv (a b : Z) : outcome float :=
  if b =? 0 then Raises (Exn ZeroDivisionError "division by zero")
  else
    let x := SF_ratio a b in
    if is_inf x
    then Raises (Exn OverflowError
                   "integer division result too large for a float")
    else Returns (SF2Prim x).

(** [float.is_integer]: finite and without fractional part. *)
Definition float_is_integer (f : float) : bool :=
  match Prim2SF f with
  | S754_zero _ => true
  | S754_finite _ m e =>
      if 0 <=? e then true else Zpos m mod 2 ^ (- e) =? 0
  | _ => false
  end.

(** [int(f)] for a finite float: truncation toward zero. *)
Definition int_of_float (f : float) : option Z :=
  match Prim2SF f with
  | S754_zero _ => Some 0
  | S754_finite s m e =>
      let a := if 0 <=? e then Zpos m * 2 ^ e else Zpos m / 2 ^ (- e) in
      Some (if s then - a else a)
  | _ => None
  end.

(** *** Fixed-point rendering: the presentation type [f] *)

(** [round(m * 2^e * 10^p)] to the nearest integer, ties to even. *)
Definition scaled_round (m e : Z) (p : nat) : Z :=
  if 0 <=? e then m * 2 ^ e * 10 ^ Z.of_nat p
  else div_half_even (m * 10 ^ Z.of_nat p) (2 ^ (- e)).

Fixpoint zeros (n : nat) : string :=
  match n with
  | O => EmptyString
  | S n => String "0" (zeros n)
  end.

Fixpoint take (k : nat) (s : string) : string :=
  match k, s with
  | S k, String c rest => String c (take k rest)
  | _, _ => EmptyString
  end.

Fixpoint drop (k : nat) (s : string) : string :=
  match k, s with
  | S k, String _ rest => drop k rest
  | _, _ => s
  end.

(** The digits of [n], left-padded with zeros to at least [p + 1]
    characters, with a point before the last [p] of them; no point
    when [p = 0]. *)
Definition fixed_digits (n : Z) (p : nat) : string :=
  let ds := NilZero.string_of_uint (N.to_uint (Z.to_N n)) in
  let ds := zeros (S p - String.length ds) +:+ ds in
  let k := (String.length ds - p)%nat in
  match p with
  | O => ds
  | _ => take k ds +:+ "." +:+ drop k ds
  end.

Definition sign_str (s : bool) : string := if s then "-" else "".

(** [format(f, '.<p>f')] for [0 <= p]. *)
Definition format_fixed (f : float) (p : nat) : string :=
  match Prim2SF f with
  | S754_nan => "nan"
  | S754_infinity s => sign_str s +:+ "inf"
  | S754_zero s => sign_str s +:+ fixed_digits 0 p
  | S754_finite s m e => sign_str s +:+ fixed_digits (scaled_round (Zpos m) e p) p
  end.

(** *** Shortest round-trip rendering: [repr(float)] *)

(** [|f|] as a fraction [a / b] with [0 < b]. *)
Definition ratio_of (m e : Z) : Z * Z :=
  if 0 <=? e then (m * 2 ^ e, 1) else (m, 2 ^ (- e)).

(** [a/b * 10^(-k)] as a fraction. *)
Definition scale10 (ab : Z * Z) (k : Z) : Z * Z :=
  let '(a, b) := ab in
  if 0 <=? k then (a, b * 10 ^ k) else (a * 10 ^ (- k), b).

(** The decimal exponent [k] with [10^k <= a/b < 10^(k+1)], searched
    upward from [k0 <= k] with [fuel] steps. *)
Fixpoint exp10_from (fuel : nat) (ab : Z * Z) (k : Z) : Z :=
  match fuel with
  | O => k
  | S fuel =>
      let '(a, b) := scale10 ab (k + 1) in
      if b <=? a then exp10_from fuel ab (k + 1) else k
  end.

Definition exp10 (m e : Z) : Z :=
  let bits := Z.log2 m + e in
  (* 10^k <= 2^bits needs k <= bits * log10(2); 1233/4096 < log10(2) *)
  let k0 := (bits * 1233) / 4096 - 1 in
  exp10_from 4 (ratio_of m e) k0.

(** Does the decimal [d * 10^k] read back as the float [(s, m, e)]? *)
Definition reads_back (m e : Z) (d k : Z) : bool :=
  let x := if 0 <=? k then SF_ratio (d * 10 ^ k) 1
           else SF_ratio d (10 ^ (- k)) in
  match x with
  | S754_finite _ m' e' => (Zpos m' =? m) && (e' =? e)
  | _ => false
  end.

(** The [n]-digit decimals just below and just above [a/b], and which
    of them to prefer (the nearer one; the even one on a tie). *)
Definition candidate (m e : Z) (n : nat) : option (Z * Z) :=
  let k := exp10 m e - Z.of_nat n + 1 in
  let '(a, b) := scale10 (ratio_of m e) k in
  let lo := a / b in
  let hi := lo + 1 in
  let near := div_half_even a b in
  let far := if near =? lo then hi else lo in
  if reads_back m e near k then Some (near, k)
  else if reads_back m e far k then Some (far, k)
  else None.

Fixpoint shortest (m e : Z) (fuel : nat) (n : nat) : Z * Z :=
  match fuel with
  | O => (m, e)
  | S fuel =>
      match candidate m e n with
      | Some dk => dk
      | None => shortest m e fuel (S n)
      end
  end.

(** Strip trailing zeros of the digit string [d * 10^k]. *)
Fixpoint strip_zeros (fuel : nat) (d k : Z) : Z * Z :=
  match fuel with
  | O => (d, k)
  | S fuel =>
      if (d mod 10 =? 0) && negb (d =? 0) then strip_zeros fuel (d / 10) (k + 1)
      else (d, k)
  end.

Definition two_digits (z : Z) : string :=
  if z <? 10 then "0" +:+ str_Z z else str_Z z.

(** Layout of [repr]: digits [ds] with the decimal point after the
    first [pt] of them; positional notation for [-4 <= pt - 1 < 16],
    exponent notation otherwise. *)
Definition layout (ds : string) (pt : Z) : string :=
  let n := Z.of_nat (String.length ds) in
  if (-4 <? pt) && (pt <=? 16) then
    if pt <=? 0 then "0." +:+ zeros (Z.to_nat (- pt)) +:+ ds
    else if n <=? pt then ds +:+ zeros (Z.to_nat (pt - n)) +:+ ".0"
    else substring 0 (Z.to_nat pt) ds +:+ "."
         +:+ substring (Z.to_nat pt) (Z.to_nat (n - pt)) ds
  else
    let x := pt - 1 in
    let mant := match ds with
                | String c EmptyString => ds
                | String c rest => String c ("." +:+ rest)
                | EmptyString => ds
                end in
    mant +:+ "e" +:+ (if x <? 0 then "-" else "+") +:+ two_digits (Z.abs x).

(** [repr(f)]. *)
Definition float_repr (f : float) : string :=
  match Prim2SF f with
  | S754_nan => "nan"
  | S754_infinity s => sign_str s +:+ "inf"
  | S754_zero s => sign_str s +:+ "0.0"
  | S754_finite s m e =>
      let '(d, k) := shortest (Zpos m) e 17 1 in
      let '(d, k) := strip_zeros 17 d k in
      let ds := str_Z d in
      sign_str s +:+ layout ds (Z.of_nat (String.length ds) + k)
  end.

End Num.

(** ** Module-level tables (lines 52-91) *)

Definition builtin (name : string) : string * value := (name, VBuiltin "builtins" name).
Definition math (name : string) : string * value := (name, VBuiltin "math" name).

Definition _safe_functions : gmap string value :=
  list_to_map
    [ builtin "abs"; builtin "round"; builtin "min"; builtin "max";
      builtin "sum"; builtin "len";
      math "sin"; math "cos"; math "tan"; math "asin"; math "acos";
      math "atan"; math "atan2"; math "sinh"; math "cosh"; math "tanh";
      math "exp"; math "log"; math "log10"; math "log2"; math "sqrt";
      builtin "pow";
      math "degrees"; math "radians"; math "ceil"; math "floor";
      math "trunc"; math "factorial"; math "gcd" ].

(** [math.pi], [math.e] and [math.tau] are written in hexadecimal so that
    the literals are the exact binary64 values. *)
Definition _safe_constants : gmap string float :=
  list_to_map
    [ ("pi", 0x1.921fb54442d18p+1%float);
      ("e", 0x1.5bf0a8b145769p+1%float);
      ("tau", 0x1.921fb54442d18p+2%float);
      ("inf", infinity);
      ("nan", nan) ].

(** [d.update(other)]: the bindings of [other] win. *)
Definition dict_update {V} (d other : gmap string V) : gmap string V := other ∪ d.

(** ** Input and output models (lines 17-49) *)

Module CalculatorInput.
Record t := Build {
  expression : string;
  precision : option Z;
  variables : option (gmap string float);
}.
End CalculatorInput.

Module CalculatorOutput.
Record t := Build {
  result : value;
  formatted_result : string;
  steps : option (list string);
  error : option string;
}.
End CalculatorOutput.

(** The entries of the [input_data] dictionary, as decoded from JSON. *)
#[warnings="-register-all"] Inductive pyobj :=
| PNone
| PBool (b : bool)
| PInt (z : Z)
| PFloat (f : float)
| PStr (s : string)
| PList (items : list pyobj)
| PDict (items : list (string * pyobj)).

(** ** The host: what the module takes from the interpreter and from
       pydantic

    A host is the interpreter at one call of the tool, in the state
    and with the call stack it has then.  [h_eval src globals] is the
    outcome of the built-in [eval(src, globals, {})] in that call: the
    evaluated code can reach the interpreter's state and the frames of
    its callers through the function objects bound in [globals], so
    the outcome belongs to the call, and two calls of the tool are two
    hosts.  [eval] returns a value or raises; what it raises can be
    any exception, also one that is not an [Exception] (the evaluated
    code can raise [SystemExit]).
    [h_int_is_integer] tells whether [int] has the method [is_integer]
    (CPython 3.12 and later).  [h_int_str_guard z] is the check CPython
    makes before it writes the integer [z] in decimal (the digit limit of
    3.11 and later); [None] lets the conversion go on.  The [h_validate_*]
    fields are pydantic's validation of one field of the declared type,
    [None] when the value is rejected; [h_validation_msg fields] is the
    text of the [ValidationError] raised for the rejected [fields].
    pydantic accepts the string ["Error"] for a field of type
    [Union[float, int, str]] and leaves it unchanged. *)
Record Host := {
  h_eval : string -> gmap string value -> outcome value;
  h_int_is_integer : bool;
  h_int_str_guard : Z -> option exn;
  h_validate_str : pyobj -> option string;
  h_validate_opt_int : pyobj -> option (option Z);
  h_validate_opt_vars : pyobj -> option (option (gmap string float));
  h_validate_result : value -> option value;
  h_validation_msg : list string -> string;
  h_validate_marker : h_validate_result (VStr "Error") = Some (VStr "Error");
}.

(** ** Rendering values *)

(** [str(z)] for an integer. *)
Definition str_int (h : Host) (z : Z) : outcome string :=
  match h_int_str_guard h z with
  | Some e => Raises e
  | None => Returns (Num.str_Z z)
  end.

(** [str(v)], which is also [format(v, '')]. *)
Definition py_str (h : Host) (v : value) : outcome string :=
  match v with
  | VInt z => str_int h z
  | VFloat f => Returns (Num.float_repr f)
  | VBool b => Returns (if b then "True" else "False")
  | VStr s => Returns s
  | VBuiltin _ name => Returns ("<built-in function " +:+ name +:+ ">")
  | VEmptyDict => Returns "{}"
  | VObj descr => Returns descr
  end.

(** [int(f)] for a float. *)
Definition py_int_of_float (f : float) : outcome Z :=
  match Num.int_of_float f with
  | Some z => Returns z
  | None =>
      if PrimFloat.is_nan f
      then Raises (Exn ValueError "cannot convert float NaN to integer")
      else Raises (Exn OverflowError "cannot convert float infinity to integer")
  end.

Definition PY_SSIZE_T_MAX : Z := 2 ^ 63 - 1.
Definition INT_MAX : Z := 2 ^ 31 - 1.

(** The f-string [f"{result:.{precision}f}"] for a float [result]: the
    inner field is written with [str], and the format specification
    [".<text>f"] needs decimal digits after the point. *)
Definition format_f (h : Host) (result : float) (precision : option Z)
  : outcome string :=
  match precision with
  | None => Raises (Exn ValueError "Format specifier missing precision")
  | Some p =>
      _ ← str_int h p;
      if p <? 0
      then Raises (Exn ValueError "Format specifier missing precision")
      else if PY_SSIZE_T_MAX <? p
      then Raises (Exn ValueError "Too many decimal digits in format string")
      else if INT_MAX <? p
      then Raises (Exn ValueError "precision too big")
      else Returns (Num.format_fixed result (Z.to_nat p))
  end.

Definition no_is_integer (type_name : string) : exn :=
  Exn AttributeError
      ("'" +:+ type_name +:+ "' object has no attribute 'is_integer'").

(** Lines 120-127. *)
Definition format_result (h : Host) (result : value) (precision : option Z)
  : outcome string :=
  match result with
  | VInt z =>
      (* isinstance(result, (int, float)); result.is_integer() *)
      if h_int_is_integer h then str_int h z
      else Raises (no_is_integer "int")
  | VBool b =>
      if h_int_is_integer h then str_int h (if b then 1 else 0)
      else Raises (no_is_integer "bool")
  | VFloat f =>
      if Num.float_is_integer f
      then z ← py_int_of_float f; str_int h z
      else format_f h f precision
  | _ => py_str h result
  end.

(** ** Regular expressions of [_evaluate_expression] *)

(** [re.match(r'^[\d\s+\-*/().]+$', s)]: the class absorbs a final
    newline itself, so the pattern matches exactly the non-empty strings
    made of class characters. *)
Definition arith_char (c : ascii) : bool :=
  Char.re_digit c || Char.re_space c || Char.one_of "+-*/()." c.

Definition simple_arithmetic (expression : string) : bool :=
  match expression with
  | EmptyString => false
  | _ => all_chars arith_char expression
  end.

(** Longest prefix of characters in [p], and what follows it. *)
Fixpoint span (p : ascii -> bool) (s : string) : string * string :=
  match s with
  | EmptyString => (EmptyString, EmptyString)
  | String c rest =>
      if p c then let '(a, b) := span p rest in (String c a, b)
      else (EmptyString, s)
  end.

(** The function pattern of line 191, anchored at the start of [s]: an
    identifier (one of [a-zA-Z_], then any number of [a-zA-Z0-9_]), any
    number of [\s] characters and an opening parenthesis.  The result is
    the group (the identifier) and the text after the match.  The three
    parts are over disjoint classes, so the greedy match is the only
    candidate and backtracking cannot find another. *)
Definition match_call (s : string) : option (string * string) :=
  match s with
  | String c rest =>
      if Char.ident_start c then
        let '(name, after_name) := span Char.ident_part rest in
        let '(_, after_space) := span Char.re_space after_name in
        match after_space with
        | String "(" after => Some (String c name, after)
        | _ => None
        end
      else None
  | EmptyString => None
  end.

(** [re.findall]: leftmost matches, scanning on after each match. *)
Fixpoint findall_calls (fuel : nat) (s : string) : list string :=
  match fuel with
  | O => []
  | S fuel =>
      match s with
      | EmptyString => []
      | String _ rest =>
          match match_call s with
          | Some (name, after) => name :: findall_calls fuel after
          | None => findall_calls fuel rest
          end
      end
  end.

Definition function_pattern_findall (expression : string) : list string :=
  findall_calls (String.length expression) expression.

(** The error of line 197. *)
Definition unknown_function (func_name : string) : exn :=
  Exn ValueError ("Function '" +:+ func_name +:+ "' is not allowed").

(** Lines 194-197: the first name outside [_safe_functions] raises. *)
Fixpoint validate_functions (functions_used : list string) : outcome unit :=
  match functions_used with
  | [] => Returns tt
  | func_name :: rest =>
      match _safe_functions !! func_name with
      | None =>
          Raises (unknown_function func_name)
      | Some _ => validate_functions rest
      end
  end.

(** ** [_evaluate_expression] (lines 169-209) *)

(** [l.append(x)] *)
Definition list_append {A} (l : list A) (x : A) : list A := (l ++ [x])%list.

Definition no_builtins : gmap string value := {[ "__builtins__" := VEmptyDict ]}.

Definition safe_env (variables : gmap string value) : gmap string value :=
  let safe_env := no_builtins in
  let safe_env := dict_update safe_env _safe_functions in
  let safe_env := dict_update safe_env variables in
  safe_env.

Definition _evaluate_expression (h : Host) (expression : string)
    (variables : gmap string value) : outcome (value * list string) :=
  let steps := [] in
  if simple_arithmetic expression then
    let steps := list_append steps ("Evaluating arithmetic expression: " +:+ expression) in
    result ← h_eval h expression no_builtins;
    shown ← py_str h result;
    let steps := list_append steps ("Result: " +:+ shown) in
    Returns (result, steps)
  else
    let functions_used := function_pattern_findall expression in
    _ ← validate_functions functions_used;
    let steps := list_append steps ("Evaluating expression: " +:+ expression) in
    result ← h_eval h expression (safe_env variables);
    shown ← py_str h result;
    let steps := list_append steps ("Result: " +:+ shown) in
    Returns (result, steps).

(** ** [calculator_tool] (lines 93-146) *)

(** Line 104: the input model built from the keys of [input_data].  [expression] is required,
    [precision] defaults to 6 and [variables] to [None]; the keys the
    model does not declare are ignored. *)
Definition field_expression (h : Host) (input_data : gmap string pyobj)
  : option string :=
  match input_data !! "expression" with
  | None => None
  | Some o => h_validate_str h o
  end.

Definition field_precision (h : Host) (input_data : gmap string pyobj)
  : option (option Z) :=
  match input_data !! "precision" with
  | None => Some (Some 6)
  | Some o => h_validate_opt_int h o
  end.

Definition field_variables (h : Host) (input_data : gmap string pyobj)
  : option (option (gmap string float)) :=
  match input_data !! "variables" with
  | None => Some None
  | Some o => h_validate_opt_vars h o
  end.

Definition rejected {A} (name : string) (field : option A) : list string :=
  match field with
  | None => [name]
  | Some _ => []
  end.

Definition parse_input (h : Host) (input_data : gmap string pyobj)
  : outcome CalculatorInput.t :=
  let e := field_expression h input_data in
  let p := field_precision h input_data in
  let v := field_variables h input_data in
  match e, p, v with
  | Some e, Some p, Some v => Returns (CalculatorInput.Build e p v)
  | _, _, _ =>
      Raises (Exn ValidationError
                (h_validation_msg h
                   (rejected "expression" e ++ rejected "precision" p
                    ++ rejected "variables" v)%list))
  end.

(** [CalculatorOutput(...)] followed by [.dict()]: only [result] has a
    type that the values at hand can fail. *)
Definition build_output (h : Host) (result : value) (formatted_result : string)
    (steps : option (list string)) (error : option string)
  : outcome CalculatorOutput.t :=
  match h_validate_result h result with
  | Some result => Returns (CalculatorOutput.Build result formatted_result steps error)
  | None => Raises (Exn ValidationError (h_validation_msg h ["result"]))
  end.

(** Lines 107-112. *)
Definition prepare_variables (given : option (gmap string float))
  : gmap string value :=
  let variables : gmap string value := ∅ in
  let variables := dict_update variables (VFloat <$> _safe_constants) in
  match given with
  | Some vs =>
      if bool_decide (size vs = 0%nat) then variables
      else dict_update variables (VFloat <$> vs)
  | None => variables
  end.

(** The body of the [try] (lines 107-135). *)
Definition try_block (h : Host) (parsed_input : CalculatorInput.t)
  : outcome CalculatorOutput.t :=
  let variables := prepare_variables (CalculatorInput.variables parsed_input) in
  let expression := _clean_expression (CalculatorInput.expression parsed_input) in
  '(result, steps) ← _evaluate_expression h expression variables;
  formatted_result ← format_result h result (CalculatorInput.precision parsed_input);
  build_output h result formatted_result (Some steps) None.

(** The handler (lines 136-146); the log line is not modelled. *)
Definition except_block (h : Host) (e : exn) : outcome CalculatorOutput.t :=
  build_output h (VStr "Error") "Error" None (Some (exn_str e)).

(** The [try] statement as a whole: line 136 is [except Exception], so
    an exception that is not an [Exception] is not handled and leaves
    the statement. *)
Definition try_except (h : Host) (parsed_input : CalculatorInput.t)
  : outcome CalculatorOutput.t :=
  match try_block h parsed_input with
  | Returns output => Returns output
  | Raises e =>
      if is_exception (exn_class_of e) then except_block h e
      else Raises e
  end.

Definition calculator_tool (h : Host) (input_data : gmap string pyobj)
  : outcome CalculatorOutput.t :=
  parsed_input ← parse_input h input_data;
  try_except h parsed_input.

(** The output the handler builds for an error message. *)
Definition error_output (message : string) : CalculatorOutput.t :=
  CalculatorOutput.Build (VStr "Error") "Error" None (Some message).

(** Does [s] start with a character of [a-zA-Z_]? *)
Definition starts_ident (s : string) : bool :=
  match s with
  | String c _ => Char.ident_start c
  | EmptyString => false
  end.

(** ** Shapes of rendered numbers *)

(** An optional minus sign and at least one decimal digit: no point. *)
Definition integer_text (s : string) : Prop :=
  exists sign ds,
    s = sign +:+ ds /\ (sign = "" \/ sign = "-")
    /\ ds <> "" /\ all_chars Char.ascii_digit ds = true.

(** An optional minus sign, at least one digit, a point, and exactly [p]
    digits. *)
Definition fixed_text (p : nat) (s : string) : Prop :=
  exists sign ip fp,
    s = sign +:+ ip +:+ "." +:+ fp /\ (sign = "" \/ sign = "-")
    /\ ip <> "" /\ all_chars Char.ascii_digit ip = true
    /\ all_chars Char.ascii_digit fp = true /\ String.length fp = p.

(** What lines 120-127 give for a numeric [result] when they return the
    text [s] under the requested [precision]. *)
Definition number_shape (result : value) (precision : option Z) (s : string)
  : Prop :=
  match result with
  | VInt z => s = Num.str_Z z /\ integer_text s
  | VBool b => s = Num.str_Z (if b then 1 else 0) /\ integer_text s
  | VFloat f =>
      if Num.float_is_integer f
      then exists z, Num.int_of_float f = Some z /\ s = Num.str_Z z
                     /\ integer_text s
      else exists p,
          precision = Some p /\ 0 <= p <= INT_MAX
          /\ match Prim2SF f with
             | S754_nan => s = "nan"
             | S754_infinity sign => s = Num.sign_str sign +:+ "inf"
             | _ =>
                 match Z.to_nat p with
                 | O => integer_text s
                 | S _ => fixed_text (Z.to_nat p) s
                 end
             end
  | _ => True
  end.

(** The formatted result of a successful call has the shape of its
    result. *)
Definition formatted_shape (h : Host) (parsed : CalculatorInput.t)
    (out : CalculatorOutput.t) : Prop :=
  exists result steps,
    _evaluate_expression h
      (_clean_expression (CalculatorInput.expression parsed))
      (prepare_variables (CalculatorInput.variables parsed))
    = Returns (result, steps)
    /\ number_shape result (CalculatorInput.precision parsed)
         (CalculatorOutput.formatted_result out).

(** A negative precision: an error for a float that is not whole, no
    effect on the text of a whole number. *)
Definition negative_precision (h : Host) : Prop :=
  (forall f p, Num.float_is_integer f = false -> p < 0 ->
     exists e, format_result h (VFloat f) (Some p) = Raises e)
  /\ (forall f p q, Num.float_is_integer f = true ->
        format_result h (VFloat f) p = format_result h (VFloat f) q)
  /\ (forall z p q, format_result h (VInt z) p = format_result h (VInt z) q).

(** ** A reference evaluator for the arithmetic fragment of [eval]

    [eval] is the interpreter's, not the module's.  [PyEval.eval_source]
    gives its result on a fragment of the expression language: decimal
    integer and point literals, names, unary and binary [+ - * / // **],
    parentheses, calls of [abs] and [math.sqrt], and the attributes
    [real] and [imag] of numbers.  It answers [None] wherever the
    fragment ends (keywords, tuples, exponents, other functions, text
    the grammar rejects, ...), so that [Some r] is only ever given for
    what CPython computes. *)

Module PyEval.

Inductive token :=
| TNum (v : value) | TName (x : string)
| TPlus | TMinus | TStar | TSlash | TDStar | TDSlash
| TLPar | TRPar | TDot | TComma.

Inductive binop := Add | Sub | Mul | Div | FloorDiv | Pow.

#[warnings="-register-all"] Inductive expr :=
| ELit (v : value)
| EName (x : string)
| EUnary (negate : bool) (e : expr)
| EBin (op : binop) (l r : expr)
| ECall (f : expr) (args : list expr)
| EAttr (e : expr) (attr : string).

(** Keywords and [__debug__]: names the compiler treats specially. *)
Definition reserved : list string :=
  [ "False"; "None"; "True"; "and"; "as"; "assert"; "async"; "await";
    "break"; "class"; "continue"; "def"; "del"; "elif"; "else"; "except";
    "finally"; "for"; "from"; "global"; "if"; "import"; "in"; "is";
    "lambda"; "nonlocal"; "not"; "or"; "pass"; "raise"; "return"; "try";
    "while"; "with"; "yield"; "__debug__" ].

Definition is_reserved (x : string) : bool :=
  existsb (String.eqb x) reserved.

(** *** Lexer *)

Fixpoint digits_value (acc : Z) (ds : string) : Z :=
  match ds with
  | EmptyString => acc
  | String c rest => digits_value (10 * acc + (Z.of_N (Char.code c) - 48)) rest
  end.

Definition starts_with (p : ascii -> bool) (s : string) : bool :=
  match s with
  | String c _ => p c
  | EmptyString => false
  end.

(** An integer literal with two digits or more must not start with 0,
    unless it is all zeros. *)
Definition int_literal (ds : string) : option value :=
  let z := digits_value 0 ds in
  if starts_with (Char.is_code 48) ds && negb (z =? 0) then None
  else Some (VInt z).

(** [ds.fs] read as the nearest binary64. *)
Definition point_literal (ds fs : string) : value :=
  VFloat (SF2Prim (Num.SF_ratio (digits_value 0 (ds +:+ fs))
                                (10 ^ Z.of_nat (String.length fs)))).

(** A number at the start of [s] (which starts with a digit, or with a
    point and a digit), and the text after it.  A literal that runs
    into a letter, a digit or an underscore is outside the fragment. *)
Definition scan_number (s : string) : option (value * string) :=
  let '(ds, after_int) := span Char.ascii_digit s in
  '(v, after) ←
    match after_int with
    | String "." after_point =>
        let '(fs, after) := span Char.ascii_digit after_point in
        Some (point_literal ds fs, after)
    | _ => v ← int_literal ds; Some (v, after_int)
    end;
  if starts_with Char.ident_part after then None else Some (v, after).

Definition is_blank (c : ascii) : bool := Char.is_code 32 c || Char.is_code 9 c.

Fixpoint lex (fuel : nat) (s : string) : option (list token) :=
  match fuel with
  | O => None
  | S fuel =>
      match s with
      | EmptyString => Some []
      | String c rest =>
          if is_blank c then lex fuel rest
          else if Char.ascii_digit c
                  || (Char.is_code 46 c && starts_with Char.ascii_digit rest)
          then '(v, after) ← scan_number s; ts ← lex fuel after; Some (TNum v :: ts)
          else if Char.ident_start c then
            let '(x, after) := span Char.ident_part s in
            if is_reserved x then None
            else ts ← lex fuel after; Some (TName x :: ts)
          else
            let single (t : token) := ts ← lex fuel rest; Some (t :: ts) in
            let double (t : token) (after : string) :=
              ts ← lex fuel after; Some (t :: ts) in
            match c, rest with
            | "+"%char, _ => single TPlus
            | "-"%char, _ => single TMinus
            | "("%char, _ => single TLPar
            | ")"%char, _ => single TRPar
            | ","%char, _ => single TComma
            | "*"%char, String "*" after => double TDStar after
            | "*"%char, _ => single TStar
            | "/"%char, String "/" after => double TDSlash after
            | "/"%char, _ => single TSlash
            | "."%char, String "." _ => None
            | "."%char, _ => single TDot
            | _, _ => None
            end
      end
  end.

(** *** Parser: the grammar rules [sum], [term], [factor], [power],
    [primary] and [atom] *)

Fixpoint p_sum (n : nat) (ts : list token) : option (expr * list token) :=
  match n with
  | O => None
  | S n => '(l, ts) ← p_term n ts; p_sum_tail n l ts
  end
with p_sum_tail (n : nat) (l : expr) (ts : list token)
  : option (expr * list token) :=
  match n with
  | O => None
  | S n =>
      match ts with
      | TPlus :: ts => '(r, ts) ← p_term n ts; p_sum_tail n (EBin Add l r) ts
      | TMinus :: ts => '(r, ts) ← p_term n ts; p_sum_tail n (EBin Sub l r) ts
      | _ => Some (l, ts)
      end
  end
with p_term (n : nat) (ts : list token) : option (expr * list token) :=
  match n with
  | O => None
  | S n => '(l, ts) ← p_factor n ts; p_term_tail n l ts
  end
with p_term_tail (n : nat) (l : expr) (ts : list token)
  : option (expr * list token) :=
  match n with
  | O => None
  | S n =>
      match ts with
      | TStar :: ts => '(r, ts) ← p_factor n ts; p_term_tail n (EBin Mul l r) ts
      | TSlash :: ts => '(r, ts) ← p_factor n ts; p_term_tail n (EBin Div l r) ts
      | TDSlash :: ts =>
          '(r, ts) ← p_factor n ts; p_term_tail n (EBin FloorDiv l r) ts
      | _ => Some (l, ts)
      end
  end
with p_factor (n : nat) (ts : list token) : option (expr * list token) :=
  match n with
  | O => None
  | S n =>
      match ts with
      | TPlus :: ts => '(e, ts) ← p_factor n ts; Some (EUnary false e, ts)
      | TMinus :: ts => '(e, ts) ← p_factor n ts; Some (EUnary true e, ts)
      | _ => p_power n ts
      end
  end
with p_power (n : nat) (ts : list token) : option (expr * list token) :=
  match n with
  | O => None
  | S n =>
      '(b, ts) ← p_primary n ts;
      match ts with
      | TDStar :: ts => '(e, ts) ← p_factor n ts; Some (EBin Pow b e, ts)
      | _ => Some (b, ts)
      end
  end
with p_primary (n : nat) (ts : list token) : option (expr * list token) :=
  match n with
  | O => None
  | S n => '(a, ts) ← p_atom n ts; p_trailers n a ts
  end
with p_trailers (n : nat) (a : expr) (ts : list token)
  : option (expr * list token) :=
  match n with
  | O => None
  | S n =>
      match ts with
      | TDot :: TName x :: ts => p_trailers n (EAttr a x) ts
      | TLPar :: ts => '(args, ts) ← p_args n ts; p_trailers n (ECall a args) ts
      | _ => Some (a, ts)
      end
  end
with p_args (n : nat) (ts : list token) : option (list expr * list token) :=
  match n with
  | O => None
  | S n =>
      match ts with
      | TRPar :: ts => Some ([], ts)
      | _ =>
          '(e, ts) ← p_sum n ts;
          match ts with
          | TComma :: ts => '(es, ts) ← p_args n ts; Some (e :: es, ts)
          | TRPar :: ts => Some ([e], ts)
          | _ => None
          end
      end
  end
with p_atom (n : nat) (ts : list token) : option (expr * list token) :=
  match n with
  | O => None
  | S n =>
      match ts with
      | TNum v :: ts => Some (ELit v, ts)
      | TName x :: ts => Some (EName x, ts)
      | TLPar :: ts =>
          '(e, ts) ← p_sum n ts;
          match ts with
          | TRPar :: ts => Some (e, ts)
          | _ => None
          end
      | _ => None
      end
  end.

Definition parse (ts : list token) : option expr :=
  match p_sum (8 * S (List.length ts)) ts with
  | Some (e, []) => Some e
  | _ => None
  end.

(** *** Evaluation *)

(** [None]: outside the fragment; [Some (Raises e)]: raises; [Some
    (Returns v)]: the value. *)
Definition andthen {A B} (m : option (outcome A))
    (k : A -> option (outcome B)) : option (outcome B) :=
  match m with
  | None => None
  | Some (Raises e) => Some (Raises e)
  | Some (Returns a) => k a
  end.

Definition ok {A} (a : A) : option (outcome A) := Some (Returns a).

(** Name lookup with empty locals: globals, then the builtins, which
    the module sets to the empty dictionary. *)
Definition load_name (globals : gmap string value) (x : string)
  : option (outcome value) :=
  match globals !! x with
  | Some v => ok v
  | None =>
      match globals !! "__builtins__" with
      | Some VEmptyDict =>
          Some (Raises (Exn NameError ("name '" +:+ x +:+ "' is not defined")))
      | _ => None
      end
  end.

Definition unary (negate : bool) (v : value) : option (outcome value) :=
  match v with
  | VInt z => ok (VInt (if negate then - z else z))
  | VFloat f => ok (VFloat (if negate then (- f)%float else f))
  | _ => None
  end.

Definition int_op (op : binop) (x y : Z) : option (outcome value) :=
  match op with
  | Add => ok (VInt (x + y))
  | Sub => ok (VInt (x - y))
  | Mul => ok (VInt (x * y))
  | Div => andthen (Some (Num.int_truediv x y)) (fun f => ok (VFloat f))
  | FloorDiv => if y =? 0 then None else ok (VInt (x / y))
  | Pow => if 0 <=? y then ok (VInt (x ^ y)) else None
  end.

Definition float_op (op : binop) (x y : float) : option (outcome value) :=
  match op with
  | Add => ok (VFloat (x + y)%float)
  | Sub => ok (VFloat (x - y)%float)
  | Mul => ok (VFloat (x * y)%float)
  | Div => if PrimFloat.is_zero y then None else ok (VFloat (x / y)%float)
  | FloorDiv | Pow => None
  end.

Definition binary (op : binop) (a b : value) : option (outcome value) :=
  match a, b with
  | VInt x, VInt y => int_op op x y
  | VFloat x, VFloat y => float_op op x y
  | VInt x, VFloat y => andthen (Some (Num.float_of_Z x)) (fun x => float_op op x y)
  | VFloat x, VInt y => andthen (Some (Num.float_of_Z y)) (fun y => float_op op x y)
  | _, _ => None
  end.

Definition to_float (v : value) : option (outcome float) :=
  match v with
  | VInt z => Some (Num.float_of_Z z)
  | VFloat f => ok f
  | _ => None
  end.

Definition call (f : value) (args : list value) : option (outcome value) :=
  match f with
  | VBuiltin m name =>
      if String.eqb m "builtins" && String.eqb name "abs" then
        match args with
        | [VInt z] => ok (VInt (Z.abs z))
        | [VFloat x] => ok (VFloat (PrimFloat.abs x))
        | _ => None
        end
      else if String.eqb m "math" && String.eqb name "sqrt" then
        match args with
        | [v] =>
            andthen (to_float v) (fun x =>
              if PrimFloat.ltb x 0 then None
              else ok (VFloat (PrimFloat.sqrt x)))
        | _ => None
        end
      else None
  | VInt _ => Some (Raises (Exn TypeError "'int' object is not callable"))
  | VFloat _ => Some (Raises (Exn TypeError "'float' object is not callable"))
  | _ => None
  end.

(** The module [builtins], as an object whose [str] is known. *)
Definition builtins_module : value := VObj "<module 'builtins' (built-in)>".

Definition getattr (v : value) (attr : string) : option (outcome value) :=
  match v with
  | VInt z =>
      if String.eqb attr "real" then ok (VInt z)
      else if String.eqb attr "imag" then ok (VInt 0)
      else None
  | VFloat f =>
      if String.eqb attr "real" then ok (VFloat f)
      else if String.eqb attr "imag" then ok (VFloat 0)
      else None
  | VBuiltin m _ =>
      (* the [__self__] of a built-in function is its module *)
      if String.eqb m "builtins" && String.eqb attr "__self__"
      then ok builtins_module
      else None
  | _ => None
  end.

Fixpoint eval (globals : gmap string value) (e : expr) : option (outcome value) :=
  match e with
  | ELit v => ok v
  | EName x => load_name globals x
  | EUnary negate e => andthen (eval globals e) (unary negate)
  | EBin op l r =>
      andthen (eval globals l) (fun a =>
      andthen (eval globals r) (fun b => binary op a b))
  | ECall f args =>
      andthen (eval globals f) (fun vf =>
      andthen
        ((fix eval_args (es : list expr) : option (outcome (list value)) :=
            match es with
            | [] => ok []
            | e :: es =>
                andthen (eval globals e) (fun v =>
                andthen (eval_args es) (fun vs => ok (v :: vs)))
            end) args)
        (fun vs => call vf vs))
  | EAttr e attr => andthen (eval globals e) (fun v => getattr v attr)
  end.

(** Sources beyond this length are left out, far below the nesting and
    recursion limits of the compiler. *)
Definition max_source : nat := 256.

Definition eval_source (source : string) (globals : gmap string value)
  : option (outcome value) :=
  if (max_source <? String.length source)%nat then None
  else
    ts ← lex (S (String.length source)) source;
    e ← parse ts;
    eval globals e.

End PyEval.

(** ** Reference hosts *)

Definition not_modelled : exn :=
  Exn NotModelled "expression outside the modelled fragment of eval".

(** An expression that leaves the namespace: it passes the sanitizer
    and holds no call for the function pattern. *)
Definition exit_expression : string :=
  "((x for x in pi.hex.__doc__).throw)(abs.__self__.SystemExit)".

(** What [eval] does with [exit_expression] when [pi] is a float and
    [abs] the built-in function: [pi.hex.__doc__] is a string, so the
    generator expression is built; [abs.__self__] is the module
    [builtins] and [abs.__self__.SystemExit] the class [SystemExit];
    [throw] on the generator, which has not started, raises
    [SystemExit()], whose [str] is empty. *)
Definition exit_eval (source : string) (globals : gmap string value)
  : option (outcome value) :=
  if String.eqb source exit_expression then
    match globals !! "pi", globals !! "abs" with
    | Some (VFloat _), Some (VBuiltin m f) =>
        if String.eqb m "builtins" && String.eqb f "abs"
        then Some (Raises (Exn SystemExit ""))
        else None
    | _, _ => None
    end
  else None.

(** [eval] as far as it is modelled: [exit_expression], and the
    fragment of [PyEval]; [NotModelled] marks the rest. *)
Definition reference_eval (source : string) (globals : gmap string value)
  : outcome value :=
  match exit_eval source globals with
  | Some r => r
  | None =>
      match PyEval.eval_source source globals with
      | Some r => r
      | None => Raises not_modelled
      end
  end.

(** The digit limit of integer to text conversion (CPython 3.11). *)
Definition int_max_str_digits : Z := 4300.

Definition digit_limit_guard (z : Z) : option exn :=
  if int_max_str_digits <? Z.of_nat (Num.decimal_digits z)
  then Some (Exn ValueError
               "Exceeds the limit (4300 digits) for integer string conversion; use sys.set_int_max_str_digits() to increase the limit")
  else None.

(** Validation of values that already have the declared type, with
    the coercion of an [int] to a [float] where a [float] is declared;
    the other coercions pydantic adds are left out. *)
Definition exact_str (o : pyobj) : option string :=
  match o with
  | PStr s => Some s
  | _ => None
  end.

Definition exact_opt_int (o : pyobj) : option (option Z) :=
  match o with
  | PNone => Some None
  | PInt z => Some (Some z)
  | _ => None
  end.

Definition exact_float (o : pyobj) : option float :=
  match o with
  | PFloat f => Some f
  | PInt z =>
      match Num.float_of_Z z with
      | Returns f => Some f
      | Raises _ => None
      end
  | _ => None
  end.

Fixpoint exact_floats (items : list (string * pyobj))
  : option (gmap string float) :=
  match items with
  | [] => Some ∅
  | (k, o) :: rest =>
      f ← exact_float o; m ← exact_floats rest; Some (<[k := f]> m)
  end.

Definition exact_opt_vars (o : pyobj) : option (option (gmap string float)) :=
  match o with
  | PNone => Some None
  | PDict items => Some <$> exact_floats items
  | _ => None
  end.

(** [result: Union[float, int, str]]: a [float], an [int] or a [str]
    is kept; a [bool] becomes the float 1.0 or 0.0; other objects are
    rejected. *)
Definition exact_result (v : value) : option value :=
  match v with
  | VInt _ | VFloat _ | VStr _ => Some v
  | VBool b => Some (VFloat (if b then 1 else 0))
  | _ => None
  end.

Definition validation_msg (fields : list string) : string :=
  "validation error for " +:+ String.concat ", " fields.

Definition reference_host (int_is_integer : bool) : Host := {|
  h_eval := reference_eval;
  h_int_is_integer := int_is_integer;
  h_int_str_guard := digit_limit_guard;
  h_validate_str := exact_str;
  h_validate_opt_int := exact_opt_int;
  h_validate_opt_vars := exact_opt_vars;
  h_validate_result := exact_result;
  h_validation_msg := validation_msg;
  h_validate_marker := eq_refl;
|}.

(** CPython 3.11, the newest version the package declares, and CPython
    3.12, the first in which [int] has [is_integer].  Their [eval] is
    given for expressions whose outcome depends on neither the state of
    the interpreter nor the call stack, so they stand for the
    interpreter at any call. *)
Definition cpython_3_11 : Host := reference_host false.
Definition cpython_3_12 : Host := reference_host true.

(** The call [calculator_tool({"expression": e, "precision": p,
    "variables": vs})]. *)
Definition call_tool (h : Host) (e : string) (p : Z)
    (vs : list (string * float)) : outcome CalculatorOutput.t :=
  calculator_tool h
    (list_to_map
       [ ("expression", PStr e); ("precision", PInt p);
         ("variables", PDict (List.map (fun kv => (fst kv, PFloat (snd kv))) vs)) ]).

(** The output of a successful call. *)
Definition success (result : value) (formatted_result : string)
    (steps : list string) : CalculatorOutput.t :=
  CalculatorOutput.Build result formatted_result (Some steps) None.

(** [evaluate("x + pi", variables={"x": 1})] with precision 2. *)
Definition x_plus_pi : CalculatorInput.t :=
  CalculatorInput.Build "x + pi" (Some 2) (Some {["x" := 1%float]}).

(** ** The tool registry ([src/aytchmcp/tools/__init__.py])

    [_TOOLS] maps a tool name to its metadata.  A Python [dict] keeps
    its keys in the order of insertion, and [get_available_tools]
    exposes that order, so the registry is a list of bindings; its keys
    are distinct.  The [function] entry is a reference to one of the
    three tool coroutines. *)

Inductive tool_function := EchoTool | WeatherTool | CalculatorTool.

Module ToolInfo.
Record t := Build {
  function : tool_function;
  name : string;
  description : string;
}.
End ToolInfo.

Definition _TOOLS : list (string * ToolInfo.t) :=
  [ ("echo",
     ToolInfo.Build EchoTool "echo"
       "Echoes back the input message, optionally with a prefix and/or in uppercase");
    ("weather",
     ToolInfo.Build WeatherTool "weather"
       "Get weather information for a location");
    ("calculator",
     ToolInfo.Build CalculatorTool "calculator"
       "Evaluates mathematical expressions and performs calculations") ].

(** [d[key]] for a dict held as a list of bindings with distinct keys;
    [None] stands for [key not in d]. *)
Fixpoint dict_get {V} (d : list (string * V)) (key : string) : option V :=
  match d with
  | [] => None
  | (k, v) :: rest => if String.eqb key k then Some v else dict_get rest key
  end.

(** [list(_TOOLS.keys())] *)
Definition get_available_tools : list string := List.map fst _TOOLS.

(** The loop of [get_tools]: one step per name of [enabled_tools]. *)
Definition get_tools_step (tools : list ToolInfo.t) (name : string)
  : list ToolInfo.t :=
  match dict_get _TOOLS name with
  | Some info => list_append tools info
  | None => tools
  end.

Definition get_tools (enabled_tools : list string) : list ToolInfo.t :=
  let tools := [] in
  fold_left get_tools_step enabled_tools tools.

(** What one name of [enabled_tools] adds to the answer. *)
Definition entries_of (name : string) : list ToolInfo.t :=
  match dict_get _TOOLS name with
  | Some info => [info]
  | None => []
  end.

(** ** Notions used to state the properties of the function pattern *)

(** A name as the pattern of line 191 reads it: one of [a-zA-Z_], then
    characters of [a-zA-Z0-9_]. *)
Definition identifier (s : string) : bool :=
  starts_ident s && all_chars Char.ident_part s.

Fixpoint last_char (s : string) : option ascii :=
  match s with
  | EmptyString => None
  | String c EmptyString => Some c
  | String _ rest => last_char rest
  end.

(** The text [before] does not end in the middle of a name: it is empty
    or its last character is not one of [a-zA-Z0-9_]. *)
Definition ends_outside_name (before : string) : bool :=
  match last_char before with
  | Some c => negb (Char.ident_part c)
  | None => true
  end.

(** ** The value of an arithmetic expression

    The standard arithmetic value of a text made of numbers, the
    operators [+ - * / // **] and parentheses: integers are exact, [/]
    is the correctly rounded quotient, a mixed operation is done on
    floats.  It is what [PyEval] computes with no name bound; a text
    that has no value (it does not parse, or divides by zero) has
    [None]. *)
Definition arithmetic_value (expression : string) : option value :=
  match PyEval.eval_source expression no_builtins with
  | Some (Returns v) => Some v
  | _ => None
  end.

(** A host whose [eval] computes arithmetic: for simple arithmetic that
    has a value, [eval] in the namespace without builtins returns it. *)
Definition computes_arithmetic (h : Host) : Prop :=
  forall expression v,
    simple_arithmetic expression = true ->
    arithmetic_value expression = Some v ->
    h_eval h expression no_builtins = Returns v.
(* ===================================================================== *)
(** * Properties *)
(* ===================================================================== *)

(** ** Sanitizer lemmas *)

Section SanitizerFacts.

Lemma all_chars_app p s t :
  all_chars p (s +:+ t) = all_chars p s && all_chars p t.
Proof.
  induction s as [|c s IH]; simpl; [reflexivity|].
  rewrite IH. now rewrite andb_assoc.
Qed.

Lemma all_chars_weaken (p q : ascii -> bool) s :
  (forall c, p c = true -> q c = true) ->
  all_chars p s = true -> all_chars q s = true.
Proof.
  intros Hpq. induction s as [|c s IH]; simpl; [reflexivity|].
  intros [Hc Hs]%andb_prop. rewrite (Hpq _ Hc). simpl. auto.
Qed.

Lemma re_sub_delete_keeps keep s :
  all_chars keep (re_sub_delete keep s) = true.
Proof.
  induction s as [|c s IH]; simpl; [reflexivity|].
  destruct (keep c) eqn:Hc; simpl; [rewrite Hc|]; assumption.
Qed.

Lemma re_sub_delete_fixed keep s :
  all_chars keep s = true -> re_sub_delete keep s = s.
Proof.
  induction s as [|c s IH]; simpl; [reflexivity|].
  intros [Hc Hs]%andb_prop. rewrite Hc. f_equal. auto.
Qed.

Lemma str_replace_fixed old new s :
  all_chars (fun c => negb (Ascii.eqb c old)) s = true ->
  str_replace old new s = s.
Proof.
  induction s as [|c s IH]; simpl; [reflexivity|].
  intros [Hc Hs]%andb_prop.
  destruct (Ascii.eqb c old); [discriminate|]. f_equal. auto.
Qed.

Lemma str_replace_all_chars (p : ascii -> bool) old new s :
  all_chars p new = true ->
  all_chars (fun c => Ascii.eqb c old || p c) s = true ->
  all_chars p (str_replace old new s) = true.
Proof.
  intros Hnew. induction s as [|c s IH]; simpl; [reflexivity|].
  intros [Hc Hs]%andb_prop.
  destruct (Ascii.eqb c old) eqn:E.
  - rewrite all_chars_app, Hnew. simpl. auto.
  - simpl in *. rewrite Hc. simpl. auto.
Qed.

End SanitizerFacts.

Lemma caret_not_kept : clean_keep "^" = false.
Proof. reflexivity. Qed.

Lemma clean_keep_not_caret c : clean_keep c = true -> Ascii.eqb c "^" = false.
Proof.
  intros H. destruct (Ascii.eqb c "^") eqn:E; [|reflexivity].
  apply Ascii.eqb_eq in E. subst c. discriminate.
Qed.

Lemma clean_expression_chars s : all_chars clean_out (_clean_expression s) = true.
Proof.
  unfold _clean_expression.
  assert (H1 : all_chars clean_out
                 (str_replace "%" "/100*" (re_sub_delete clean_keep s)) = true).
  { apply str_replace_all_chars; [reflexivity|].
    eapply all_chars_weaken; [|apply re_sub_delete_keeps].
    intros c Hc. unfold clean_out. rewrite Hc.
    destruct (Ascii.eqb c "%"); reflexivity. }
  rewrite str_replace_fixed; [exact H1|].
  eapply all_chars_weaken; [|exact H1].
  intros c [Hc _]%andb_prop. now rewrite (clean_keep_not_caret _ Hc).
Qed.

(** C9: the sanitizer is idempotent: applying [_clean_expression] (character
    strip, [%] rewrite, [^] rewrite) to its own output returns that output
    unchanged. *)
Theorem clean_expression_idempotent (s : string) :
  _clean_expression (_clean_expression s) = _clean_expression s.
Proof.
  pose proof (clean_expression_chars s) as H.
  set (t := _clean_expression s) in *.
  unfold _clean_expression.
  rewrite re_sub_delete_fixed.
  2:{ eapply all_chars_weaken; [|exact H]. now intros c [Hc _]%andb_prop. }
  rewrite (str_replace_fixed "%").
  2:{ eapply all_chars_weaken; [|exact H]. now intros c [_ Hc]%andb_prop. }
  apply str_replace_fixed.
  eapply all_chars_weaken; [|exact H].
  intros c [Hc _]%andb_prop. now rewrite (clean_keep_not_caret _ Hc).
Qed.

(** ** The function whitelist *)

Lemma ident_start_not_arith c :
  Char.ident_start c = true -> arith_char c = false.
Proof.
  destruct c as [[] [] [] [] [] [] [] []]; vm_compute; congruence.
Qed.

Lemma match_call_ident_start s name after :
  match_call s = Some (name, after) -> starts_ident s = true.
Proof.
  destruct s as [|c rest]; simpl; [discriminate|].
  destruct (Char.ident_start c); [reflexivity | discriminate].
Qed.

(** A string in which the function pattern matches somewhere holds a
    character of [a-zA-Z_], so it is not simple arithmetic. *)
Lemma findall_calls_not_arith fuel s name :
  In name (findall_calls fuel s) -> all_chars arith_char s = false.
Proof.
  revert s. induction fuel as [|fuel IH]; intros s; simpl; [tauto|].
  destruct s as [|c rest]; [simpl; tauto|].
  destruct (match_call (String c rest)) as [[n after]|] eqn:E.
  - intros _. apply match_call_ident_start in E. simpl in E.
    simpl. now rewrite (ident_start_not_arith _ E).
  - intros Hin. simpl. rewrite (IH _ Hin). apply andb_false_r.
Qed.

Lemma findall_not_simple expression name :
  In name (function_pattern_findall expression) ->
  simple_arithmetic expression = false.
Proof.
  unfold function_pattern_findall, simple_arithmetic. intros Hin.
  destruct expression; [reflexivity|].
  eapply findall_calls_not_arith; eauto.
Qed.

(** The loop of lines 195-197 stops at the first name that is not a key
    of the table. *)
Lemma validate_functions_first names :
  (exists name, In name names /\ _safe_functions !! name = None) ->
  exists name, In name names /\ _safe_functions !! name = None
               /\ validate_functions names = Raises (unknown_function name).
Proof.
  induction names as [|n names IH]; intros (name & Hin & Hnone).
  - destruct Hin.
  - cbn [validate_functions]. destruct (_safe_functions !! n) eqn:E.
    + destruct Hin as [->|Hin]; [congruence|].
      destruct IH as (name' & Hin' & Hnone' & Hv); [eauto|].
      exists name'. repeat split; auto. now right.
    + exists n. repeat split; auto. now left.
Qed.

Lemma validate_functions_ok names :
  (forall name, In name names -> is_Some (_safe_functions !! name)) ->
  validate_functions names = Returns tt.
Proof.
  induction names as [|n names IH]; intros Hall; [reflexivity|].
  cbn [validate_functions].
  destruct (Hall n) as [v ->]; [now left|]. apply IH. intros; apply Hall. now right.
Qed.

Lemma except_block_returns h e :
  except_block h e = Returns (error_output (exn_str e)).
Proof.
  unfold except_block, build_output. now rewrite h_validate_marker.
Qed.

(** C4: when the function pattern finds in the expression an identifier
    that is not a key of [_safe_functions], evaluation fails with the
    error that names the first such identifier, whatever [eval] or the
    variables are ([eval] is not reached), and the tool answers with the
    error output, which carries no result and no steps. *)
Theorem unknown_function_rejected (expression : string) :
  (exists name, In name (function_pattern_findall expression)
                /\ _safe_functions !! name = None) ->
  exists name,
    In name (function_pattern_findall expression)
    /\ _safe_functions !! name = None
    /\ (forall h variables,
          _evaluate_expression h expression variables
          = Raises (unknown_function name))
    /\ (forall h parsed,
          _clean_expression (CalculatorInput.expression parsed) = expression ->
          try_except h parsed
          = Returns (error_output ("Function '" +:+ name +:+ "' is not allowed"))).
Proof.
  intros Hex.
  destruct (validate_functions_first _ Hex) as (name & Hin & Hnone & Hv).
  assert (Heval : forall h variables,
             _evaluate_expression h expression variables
             = Raises (unknown_function name)).
  { intros h variables. unfold _evaluate_expression.
    rewrite (findall_not_simple _ _ Hin), Hv. reflexivity. }
  exists name. repeat split; auto.
  intros h parsed Hclean. unfold try_except, try_block.
  rewrite Hclean, Heval. cbn. apply except_block_returns.
Qed.

Lemma unknown_function_rejected_witness :
  exists name,
    In name (function_pattern_findall "foo(1)")
    /\ _safe_functions !! name = None
    /\ (forall h variables,
          _evaluate_expression h "foo(1)" variables
          = Raises (unknown_function name))
    /\ (forall h parsed,
          _clean_expression (CalculatorInput.expression parsed) = "foo(1)" ->
          try_except h parsed
          = Returns (error_output ("Function '" +:+ name +:+ "' is not allowed"))).
Proof.
  apply (unknown_function_rejected "foo(1)").
  exists "foo". split; [vm_compute; auto | reflexivity].
Defined.

(** ** The structured result *)

Lemma try_block_no_error h parsed out :
  try_block h parsed = Returns out -> CalculatorOutput.error out = None.
Proof.
  unfold try_block.
  destruct (_evaluate_expression _ _ _) as [[result steps]|]; cbn; [|discriminate].
  destruct (format_result _ _ _); cbn; [|discriminate].
  unfold build_output. destruct (h_validate_result _ _); [|discriminate].
  now intros [= <-].
Qed.


(** ** Input validation *)

(** C10: when the input model rejects [input_data] (the key [expression]
    is missing, or a field's value is rejected), [calculator_tool] raises
    the [ValidationError] of line 104 to its caller; no output is built. *)
Theorem validation_error_propagates (h : Host) (input_data : gmap string pyobj) :
  input_data !! "expression" = None
  \/ field_expression h input_data = None
  \/ field_precision h input_data = None
  \/ field_variables h input_data = None ->
  exists e,
    exn_class_of e = ValidationError
    /\ parse_input h input_data = Raises e
    /\ calculator_tool h input_data = Raises e.
Proof.
  intros Hrej.
  assert (Hrej' : field_expression h input_data = None
                  \/ field_precision h input_data = None
                  \/ field_variables h input_data = None).
  { destruct Hrej as [Hm|[H|[H|H]]]; auto.
    left. unfold field_expression. now rewrite Hm. }
  clear Hrej.
  assert (Hp : exists e, exn_class_of e = ValidationError
                         /\ parse_input h input_data = Raises e).
  { unfold parse_input.
    destruct (field_expression h input_data), (field_precision h input_data),
      (field_variables h input_data);
      try (eexists; split; [|reflexivity]; reflexivity).
    destruct Hrej' as [H|[H|H]]; discriminate. }
  destruct Hp as (e & Hc & Hp). exists e. repeat split; auto.
  unfold calculator_tool. now rewrite Hp.
Qed.

Lemma validation_error_propagates_witness :
  exists e,
    exn_class_of e = ValidationError
    /\ parse_input cpython_3_11 (<["precision" := PInt 2]> ∅) = Raises e
    /\ calculator_tool cpython_3_11 (<["precision" := PInt 2]> ∅) = Raises e.
Proof.
  apply (validation_error_propagates cpython_3_11 (<["precision" := PInt 2]> ∅)).
  left. reflexivity.
Defined.

(** ** The evaluation namespace *)

(** [d.update(other)] read at one key. *)
Lemma dict_update_lookup {V} (d other : gmap string V) (k : string) :
  dict_update d other !! k =
    match other !! k with
    | Some v => Some v
    | None => d !! k
    end.
Proof.
  unfold dict_update. rewrite lookup_union.
  destruct (other !! k), (d !! k); reflexivity.
Qed.

Lemma safe_env_base (vars : gmap string value) (name : string) :
  safe_env vars !! name =
    match vars !! name with
    | Some v => Some v
    | None =>
        match _safe_functions !! name with
        | Some f => Some f
        | None => no_builtins !! name
        end
    end.
Proof. unfold safe_env. now rewrite !dict_update_lookup. Qed.

Lemma constants_lookup (name : string) :
  dict_update (∅ : gmap string value) (VFloat <$> _safe_constants) !! name
  = VFloat <$> _safe_constants !! name.
Proof.
  rewrite dict_update_lookup, lookup_fmap, lookup_empty.
  generalize (_safe_constants !! name). intros [c|]; reflexivity.
Qed.

(** How a name resolves in the namespace given to [eval]: the caller's
    variable, else the constant, else the function, else [__builtins__]. *)
Lemma safe_env_lookup (given : option (gmap string float)) (name : string) :
  safe_env (prepare_variables given) !! name =
    match default ∅ given !! name with
    | Some x => Some (VFloat x)
    | None =>
        match _safe_constants !! name with
        | Some c => Some (VFloat c)
        | None =>
            match _safe_functions !! name with
            | Some f => Some f
            | None => no_builtins !! name
            end
        end
    end.
Proof.
  rewrite safe_env_base.
  assert (Hvars : prepare_variables given !! name =
                    match default ∅ given !! name with
                    | Some x => Some (VFloat x)
                    | None => VFloat <$> _safe_constants !! name
                    end).
  { unfold prepare_variables. destruct given as [vs|]; cbn [from_option id].
    - case_bool_decide as Hsize.
      + apply map_size_empty_iff in Hsize. subst vs.
        now rewrite constants_lookup, lookup_empty.
      + rewrite dict_update_lookup, lookup_fmap, constants_lookup.
        generalize (vs !! name). intros [x|]; reflexivity.
    - now rewrite constants_lookup, lookup_empty. }
  rewrite Hvars. generalize (default ∅ given !! name). intros [x|]; [reflexivity|].
  generalize (_safe_constants !! name). intros [c|]; reflexivity.
Qed.

(** C8 (as amended): in the namespace given to [eval], a name that the
    caller's variables bind resolves to the caller's value, whether the
    name is also a constant or a key of the function table: variables
    override constants and functions alike. *)
Theorem namespace_precedence (given : option (gmap string float))
    (name : string) (x : float) :
  default ∅ given !! name = Some x ->
  safe_env (prepare_variables given) !! name = Some (VFloat x).
Proof. intros H. now rewrite safe_env_lookup, H. Qed.

Lemma namespace_precedence_witness :
  safe_env (prepare_variables (Some {["sqrt" := 2%float]})) !! "sqrt"
  = Some (VFloat 2).
Proof.
  apply (namespace_precedence (Some {["sqrt" := 2%float]}) "sqrt" 2%float).
  reflexivity.
Defined.

(** ** Rendering of numbers *)

Section Digits.

Lemma length_app s t :
  String.length (s +:+ t) = (String.length s + String.length t)%nat.
Proof. induction s; simpl; auto. Qed.

Lemma append_cons c s t : String c s +:+ t = String c (s +:+ t).
Proof. reflexivity. Qed.

Lemma take_drop k s : Num.take k s +:+ Num.drop k s = s.
Proof.
  revert s. induction k as [|k IH]; intros [|c s]; simpl; auto.
  now rewrite append_cons, IH.
Qed.

Lemma length_drop k s :
  String.length (Num.drop k s) = (String.length s - k)%nat.
Proof. revert s. induction k as [|k IH]; intros [|c s]; simpl; auto. Qed.

Lemma take_nonempty k s :
  (0 < k)%nat -> s <> "" -> Num.take k s <> "".
Proof. destruct k, s; simpl; try lia; congruence. Qed.

Lemma all_chars_split p k s :
  all_chars p s = true ->
  all_chars p (Num.take k s) = true /\ all_chars p (Num.drop k s) = true.
Proof.
  intros H. rewrite <- (take_drop k s), all_chars_app in H.
  now apply andb_prop in H.
Qed.

Lemma zeros_digits n : all_chars Char.ascii_digit (Num.zeros n) = true.
Proof. induction n; simpl; auto. Qed.

Lemma length_zeros n : String.length (Num.zeros n) = n.
Proof. induction n; simpl; auto. Qed.

Lemma uint_digits d :
  all_chars Char.ascii_digit (NilEmpty.string_of_uint d) = true.
Proof. induction d; simpl; auto. Qed.

Lemma uint_text d :
  all_chars Char.ascii_digit (NilZero.string_of_uint d) = true
  /\ NilZero.string_of_uint d <> "".
Proof.
  destruct d; simpl; split; try discriminate; try reflexivity;
    apply uint_digits.
Qed.

Lemma str_Z_integer_text z : integer_text (Num.str_Z z).
Proof.
  unfold Num.str_Z, NilZero.string_of_int.
  destruct (Z.to_int z) as [d|d]; destruct (uint_text d) as [Hd Hne].
  - exists "", (NilZero.string_of_uint d). auto.
  - exists "-", (NilZero.string_of_uint d). auto.
Qed.

(** The padded digits of [fixed_digits]: digits only, more than [p]. *)
Lemma padded_digits d p :
  let ds := Num.zeros (S p - String.length (NilZero.string_of_uint d))
            +:+ NilZero.string_of_uint d in
  all_chars Char.ascii_digit ds = true /\ (p < String.length ds)%nat.
Proof.
  destruct (uint_text d) as [Hd Hne]. cbv zeta. split.
  - now rewrite all_chars_app, zeros_digits, Hd.
  - rewrite length_app, length_zeros.
    destruct (NilZero.string_of_uint d); [congruence|]. simpl. lia.
Qed.

(** The digits of [fixed_digits], without sign: digits only for
    [p = 0]; otherwise digits, a point and [p] digits. *)
Lemma fixed_digits_shape n p :
  match p with
  | O => Num.fixed_digits n p <> ""
         /\ all_chars Char.ascii_digit (Num.fixed_digits n p) = true
  | S _ => exists ip fp,
      Num.fixed_digits n p = ip +:+ "." +:+ fp
      /\ ip <> "" /\ all_chars Char.ascii_digit ip = true
      /\ all_chars Char.ascii_digit fp = true /\ String.length fp = p
  end.
Proof.
  unfold Num.fixed_digits.
  destruct (padded_digits (N.to_uint (Z.to_N n)) p) as [Hd Hlen].
  set (ds := Num.zeros _ +:+ _) in *.
  destruct p as [|p].
  - split; [|exact Hd]. intros E. rewrite E in Hlen. simpl in Hlen. lia.
  - set (k := (String.length ds - S p)%nat).
    destruct (all_chars_split _ k ds Hd) as [Ht Hdr].
    exists (Num.take k ds), (Num.drop k ds). repeat split; auto.
    + apply take_nonempty; [unfold k; lia|].
      intros E. rewrite E in Hlen. simpl in Hlen. lia.
    + rewrite length_drop. unfold k. lia.
Qed.

Lemma sign_str_cases s : Num.sign_str s = "" \/ Num.sign_str s = "-".
Proof. destruct s; auto. Qed.

End Digits.

(** A finite float that is not whole is rendered by [format_fixed] with
    exactly [p] digits after the point, and without a point for [p = 0]. *)
Lemma format_fixed_shape f p :
  match Prim2SF f with
  | S754_nan => Num.format_fixed f p = "nan"
  | S754_infinity s => Num.format_fixed f p = Num.sign_str s +:+ "inf"
  | _ =>
      match p with
      | O => integer_text (Num.format_fixed f p)
      | S _ => fixed_text p (Num.format_fixed f p)
      end
  end.
Proof.
  unfold Num.format_fixed.
  assert (Hsign : forall s n,
             match p with
             | O => integer_text (Num.sign_str s +:+ Num.fixed_digits n p)
             | S _ => fixed_text p (Num.sign_str s +:+ Num.fixed_digits n p)
             end).
  { intros s n. pose proof (fixed_digits_shape n p) as H. destruct p.
    - destruct H as [Hne Hd].
      exists (Num.sign_str s), (Num.fixed_digits n 0).
      repeat split; auto using sign_str_cases.
    - destruct H as (ip & fp & E & Hne & Hi & Hf & Hl).
      exists (Num.sign_str s), ip, fp. rewrite E.
      repeat split; auto using sign_str_cases. }
  destruct (Prim2SF f); try reflexivity; apply Hsign.
Qed.

Lemma str_int_returns h z s :
  str_int h z = Returns s -> s = Num.str_Z z /\ integer_text s.
Proof.
  unfold str_int. destruct (h_int_str_guard h z); [discriminate|].
  intros [= <-]. split; [reflexivity | apply str_Z_integer_text].
Qed.

Lemma format_f_returns h f precision s :
  format_f h f precision = Returns s ->
  exists p, precision = Some p /\ 0 <= p <= INT_MAX
            /\ s = Num.format_fixed f (Z.to_nat p).
Proof.
  unfold format_f. destruct precision as [p|]; [|discriminate].
  destruct (str_int h p); cbn; [|discriminate].
  destruct (p <? 0) eqn:E0; [discriminate|].
  destruct (PY_SSIZE_T_MAX <? p); [discriminate|].
  destruct (INT_MAX <? p) eqn:E1; [discriminate|].
  intros [= <-]. exists p. repeat split; lia.
Qed.

Lemma format_result_shape h result precision s :
  format_result h result precision = Returns s ->
  number_shape result precision s.
Proof.
  destruct result as [z|f|b| | | |]; simpl; try tauto.
  - destruct (h_int_is_integer h); [apply str_int_returns | discriminate].
  - destruct (Num.float_is_integer f) eqn:Ei.
    + unfold py_int_of_float.
      destruct (Num.int_of_float f) as [z|]; cbn.
      * intros H%str_int_returns. exists z. tauto.
      * destruct (is_nan f); discriminate.
    + intros (p & -> & Hp & ->)%format_f_returns.
      exists p. repeat split; try tauto.
      pose proof (format_fixed_shape f (Z.to_nat p)) as H.
      destruct (Prim2SF f); auto.
  - destruct (h_int_is_integer h); [apply str_int_returns | discriminate].
Qed.

Lemma negative_precision_holds h : negative_precision h.
Proof.
  split; [|split].
  - intros f p Hf Hp. simpl. rewrite Hf. unfold format_f.
    destruct (str_int h p); cbn; [|eauto].
    apply Z.ltb_lt in Hp. rewrite Hp. eauto.
  - intros f p q Hf. simpl. now rewrite Hf.
  - reflexivity.
Qed.

(** C7 (as amended): when the call succeeds, a whole-number result (an
    [int], or a [float] without fractional part) is rendered as the
    decimal text of that integer, without a point, whatever the
    precision; a finite float that is not whole is rendered with exactly
    [precision] digits after the point, for a precision from 0 to
    [INT_MAX] (no point for 0); an infinite result or a NaN is rendered
    as "inf", "-inf" or "nan".  A negative precision makes the call fail
    when the result is not whole and changes nothing when it is. *)
Theorem formatted_result_shape (h : Host) (parsed : CalculatorInput.t)
    (out : CalculatorOutput.t) :
  try_block h parsed = Returns out ->
  formatted_shape h parsed out /\ negative_precision h.
Proof.
  intros Htry. split; [|apply negative_precision_holds].
  unfold formatted_shape. unfold try_block in Htry.
  destruct (_evaluate_expression _ _ _) as [[result steps]|]; cbn in Htry;
    [|discriminate].
  destruct (format_result h result _) as [s|] eqn:Ef; cbn in Htry;
    [|discriminate].
  unfold build_output in Htry.
  destruct (h_validate_result h result); [|discriminate].
  injection Htry as <-. simpl.
  exists result, steps. split; [reflexivity|].
  eapply format_result_shape; eauto.
Qed.

Lemma formatted_result_shape_witness :
  formatted_shape cpython_3_11 x_plus_pi
    (success (VFloat (1 + 0x1.921fb54442d18p+1)) "4.14"
       ["Evaluating expression: x + pi"; "Result: 4.141592653589793"])
  /\ negative_precision cpython_3_11.
Proof.
  apply (formatted_result_shape cpython_3_11 x_plus_pi).
  vm_compute. reflexivity.
Defined.

(** The result [inf] is a float that is not whole, and its text has no
    digits after a point: the claim C7 fails there. *)
Lemma infinite_result_has_no_digits :
  call_tool cpython_3_11 "inf" 6 []
  = Returns (success (VFloat infinity) "inf"
               ["Evaluating expression: inf"; "Result: inf"])
  /\ Num.float_is_integer infinity = false
  /\ ~ fixed_text 6 "inf".
Proof.
  split; [vm_compute; reflexivity|]. split; [reflexivity|].
  intros (sign & ip & fp & E & _ & _ & _ & _ & Hlen).
  apply (f_equal String.length) in E.
  rewrite !length_app, Hlen in E. simpl in E. lia.
Qed.

(** ** Concrete calls: rewrites of the sanitizer *)

Lemma re_sub_delete_app keep s t :
  re_sub_delete keep (s +:+ t) = re_sub_delete keep s +:+ re_sub_delete keep t.
Proof.
  induction s as [|c s IH]; simpl; [reflexivity|].
  destruct (keep c); simpl; now rewrite IH.
Qed.

Lemma append_assoc (s t u : string) : (s +:+ t) +:+ u = s +:+ (t +:+ u).
Proof.
  induction s as [|c s IH]; [reflexivity|]. now rewrite !append_cons, IH.
Qed.

Lemma str_replace_app old new s t :
  str_replace old new (s +:+ t) = str_replace old new s +:+ str_replace old new t.
Proof.
  induction s as [|c s IH]; simpl; [reflexivity|].
  destruct (Ascii.eqb c old); simpl; rewrite IH; [|reflexivity].
  now rewrite append_assoc.
Qed.

(** The sanitizer works character by character. *)
Lemma clean_expression_app s t :
  _clean_expression (s +:+ t) = _clean_expression s +:+ _clean_expression t.
Proof.
  unfold _clean_expression.
  now rewrite re_sub_delete_app, !str_replace_app.
Qed.

(** C2 (as amended): every [%] becomes [/100*]; "50%*200" is therefore
    "50/100**200", whose value 50/(100**200) is below the smallest float
    and comes out as 0.0, rendered "0"; the value 100 is what "50%200"
    gives, whose sanitized form is "50/100*200". *)
Theorem percent_rewrite :
  (forall s t, _clean_expression (s +:+ "%" +:+ t)
               = _clean_expression s +:+ "/100*" +:+ _clean_expression t)
  /\ _clean_expression "50%*200" = "50/100**200"
  /\ (forall h, In h [cpython_3_11; cpython_3_12] ->
        call_tool h "50%*200" 6 []
        = Returns (success (VFloat 0) "0"
                     ["Evaluating arithmetic expression: 50/100**200";
                      "Result: 0.0"])
        /\ call_tool h "50%200" 6 []
           = Returns (success (VFloat 100) "100"
                        ["Evaluating arithmetic expression: 50/100*200";
                         "Result: 100.0"])).
Proof.
  split; [|split].
  - intros s t. now rewrite !clean_expression_app.
  - reflexivity.
  - intros h [<-|[<-|[]]]; split; vm_compute; reflexivity.
Qed.

Lemma percent_rewrite_witness :
  call_tool cpython_3_11 "50%200" 6 []
  = Returns (success (VFloat 100) "100"
               ["Evaluating arithmetic expression: 50/100*200";
                "Result: 100.0"]).
Proof.
  destruct percent_rewrite as (_ & _ & H).
  apply (H cpython_3_11). now left.
Defined.

(** The call of the claim C2 returns 0.0, not 100. *)
Lemma percent_times_is_power :
  exists out,
    call_tool cpython_3_11 "50%*200" 6 [] = Returns out
    /\ CalculatorOutput.result out = VFloat 0
    /\ CalculatorOutput.formatted_result out = "0"
    /\ CalculatorOutput.result out <> VFloat 100
    /\ CalculatorOutput.result out <> VInt 100.
Proof.
  eexists. split; [vm_compute; reflexivity|]. simpl.
  split; [reflexivity|]. split; [reflexivity|]. split; discriminate.
Qed.

(** C3: the character filter of line 159 deletes [^] before line 165
    can rewrite it, so "2^10" is evaluated as "210". *)
Theorem caret_is_deleted :
  (forall s t, _clean_expression (s +:+ "^" +:+ t)
               = _clean_expression s +:+ _clean_expression t)
  /\ _clean_expression "2^10" = "210"
  /\ call_tool cpython_3_12 "2^10" 6 []
     = Returns (success (VInt 210) "210"
                  ["Evaluating arithmetic expression: 210"; "Result: 210"])
  /\ call_tool cpython_3_11 "2^10" 6 []
     = Returns (error_output "'int' object has no attribute 'is_integer'")
  /\ call_tool cpython_3_12 "2**10" 6 []
     = Returns (success (VInt 1024) "1024"
                  ["Evaluating arithmetic expression: 2**10"; "Result: 1024"]).
Proof.
  split; [|repeat split; vm_compute; reflexivity].
  intros s t. now rewrite !clean_expression_app.
Qed.

(** ** The fast path *)

Lemma reference_computes_arithmetic (int_is_integer : bool) :
  computes_arithmetic (reference_host int_is_integer).
Proof.
  intros expression v _ Hv. change (reference_eval expression no_builtins = Returns v).
  unfold reference_eval, exit_eval.
  assert (Hpi : no_builtins !! "pi" = None) by reflexivity.
  rewrite Hpi. unfold arithmetic_value in Hv.
  destruct (String.eqb expression exit_expression);
    destruct (PyEval.eval_source expression no_builtins) as [[v'|e]|];
    congruence.
Qed.






(** ** Shadowing *)

(** A variable named [sqrt] takes the place of the function: the claim
    C8 fails. *)
Lemma variable_shadows_function :
  safe_env (prepare_variables None) !! "sqrt" = Some (VBuiltin "math" "sqrt")
  /\ safe_env (prepare_variables (Some {["sqrt" := 2%float]})) !! "sqrt"
     = Some (VFloat 2)
  /\ call_tool cpython_3_11 "sqrt(16)" 6 []
     = Returns (success (VFloat 4) "4"
                  ["Evaluating expression: sqrt(16)"; "Result: 4.0"])
  /\ call_tool cpython_3_11 "sqrt(16)" 6 [("sqrt", 2%float)]
     = Returns (error_output "'float' object is not callable")
  /\ call_tool cpython_3_11 "sqrt + 1" 6 [("sqrt", 2%float)]
     = Returns (success (VFloat 3) "3"
                  ["Evaluating expression: sqrt + 1"; "Result: 3.0"]).
Proof. repeat split; vm_compute; reflexivity. Qed.

(** ** What the sanitizer and the namespace do about hostile input *)

Lemma one_of_hostile_not_kept c :
  Char.one_of ";=:[]{}'<>!&|~@#$?^" c = true -> clean_out c = false.
Proof.
  destruct c as [[] [] [] [] [] [] [] []]; vm_compute; congruence.
Qed.

Lemma dict_update_dom {V} (d other : gmap string V) :
  dom (dict_update d other) = dom d ∪ dom other.
Proof. unfold dict_update. rewrite dom_union_L. apply (comm_L (∪)). Qed.

Lemma safe_env_dom (given : option (gmap string float)) :
  dom (safe_env (prepare_variables given))
  = {["__builtins__"]} ∪ dom _safe_functions ∪ dom _safe_constants
    ∪ dom (default ∅ given).
Proof.
  unfold safe_env, prepare_variables, no_builtins.
  generalize _safe_functions _safe_constants. intros fs cs.
  destruct given as [vs|]; cbn [from_option id].
  - case_bool_decide as Hsize.
    + apply map_size_empty_iff in Hsize. subst vs.
      rewrite !dict_update_dom, dom_fmap_L, dom_singleton_L, !dom_empty_L.
      now rewrite (left_id_L ∅ (∪)), (right_id_L ∅ (∪)).
    + rewrite !dict_update_dom, !dom_fmap_L, dom_singleton_L, dom_empty_L.
      now rewrite (left_id_L ∅ (∪)), (assoc_L (∪)).
  - rewrite !dict_update_dom, dom_fmap_L, dom_singleton_L, !dom_empty_L.
    now rewrite (left_id_L ∅ (∪)), (right_id_L ∅ (∪)).
Qed.

(** C1: the sandbox does not hold.  An attribute access passes the
    sanitizer unchanged and holds no call for the function pattern, so
    for every host it is handed to [eval], in a namespace where [abs]
    is bound to the built-in function; [abs.__self__] is then the
    module [builtins], which is outside the three tables and holds
    every built-in name, and the evaluation returns it.  Through it
    [exit_expression], which passes the sanitizer and the function
    check as well, raises [SystemExit]. *)
Theorem sandbox_is_escaped :
  _clean_expression "abs.__self__" = "abs.__self__"
  /\ function_pattern_findall "abs.__self__" = []
  /\ (forall h variables,
        _evaluate_expression h "abs.__self__" variables
        = (result ← h_eval h "abs.__self__" (safe_env variables);
           shown ← py_str h result;
           Returns (result,
                    ["Evaluating expression: abs.__self__";
                     "Result: " +:+ shown])))
  /\ safe_env (prepare_variables None) !! "abs" = Some (VBuiltin "builtins" "abs")
  /\ _evaluate_expression cpython_3_11 "abs.__self__" (prepare_variables None)
     = Returns (PyEval.builtins_module,
                ["Evaluating expression: abs.__self__";
                 "Result: <module 'builtins' (built-in)>"])
  /\ _clean_expression exit_expression = exit_expression
  /\ function_pattern_findall exit_expression = []
  /\ _evaluate_expression cpython_3_11 exit_expression (prepare_variables None)
     = Raises (Exn SystemExit "").
Proof.
  split; [reflexivity|]. split; [reflexivity|]. split.
  - intros h variables. unfold _evaluate_expression.
    change (simple_arithmetic "abs.__self__") with false.
    change (function_pattern_findall "abs.__self__") with (@nil string).
    reflexivity.
  - repeat split; vm_compute; reflexivity.
Qed.

(** A statement separator does not make the call fail, and an attribute
    of a number is read. *)
Lemma separator_and_attribute_accepted :
  _clean_expression "1;2" = "12"
  /\ call_tool cpython_3_12 "1;2" 6 []
     = Returns (success (VInt 12) "12"
                  ["Evaluating arithmetic expression: 12"; "Result: 12"])
  /\ _clean_expression "(1.5).real" = "(1.5).real"
  /\ call_tool cpython_3_11 "(1.5).real" 6 []
     = Returns (success (VFloat 1.5) "1.500000"
                  ["Evaluating expression: (1.5).real"; "Result: 1.5"])
  /\ call_tool cpython_3_12 "(1.5).real" 6 []
     = Returns (success (VFloat 1.5) "1.500000"
                  ["Evaluating expression: (1.5).real"; "Result: 1.5"]).
Proof. repeat split; vm_compute; reflexivity. Qed.

(** * Further properties of the calculator *)

(** ** The sanitizer, character by character *)

Lemma clean_out_fixed s :
  all_chars clean_out s = true -> _clean_expression s = s.
Proof.
  intros H. unfold _clean_expression.
  rewrite re_sub_delete_fixed.
  2:{ eapply all_chars_weaken; [|exact H]. now intros c [Hc _]%andb_prop. }
  rewrite (str_replace_fixed "%").
  2:{ eapply all_chars_weaken; [|exact H]. now intros c [_ Hc]%andb_prop. }
  apply str_replace_fixed.
  eapply all_chars_weaken; [|exact H].
  intros c [Hc _]%andb_prop. now rewrite (clean_keep_not_caret _ Hc).
Qed.

Lemma arith_char_clean_out c : arith_char c = true -> clean_out c = true.
Proof. destruct c as [[] [] [] [] [] [] [] []]; vm_compute; congruence. Qed.

(** X1: the sanitizer leaves an expression unchanged exactly when every
    character of it is in the class of line 159 and none is [%]; in
    particular it does not touch an expression made of digits, white
    space and [+ - * / ( ) .] only. *)
Theorem clean_expression_fixed_points :
  (forall s, _clean_expression s = s <-> all_chars clean_out s = true)
  /\ (forall s, all_chars arith_char s = true -> _clean_expression s = s).
Proof.
  split.
  - intros s. split.
    + intros E. rewrite <- E. apply clean_expression_chars.
    + apply clean_out_fixed.
  - intros s Hs. apply clean_out_fixed.
    eapply all_chars_weaken; [|exact Hs]. exact arith_char_clean_out.
Qed.

Lemma clean_expression_cons c s :
  _clean_expression (String c s)
  = (if Ascii.eqb c "%" then "/100*"
     else if clean_keep c then String c "" else "")
    +:+ _clean_expression s.
Proof.
  change (String c s) with (String c "" +:+ s).
  rewrite clean_expression_app. f_equal.
  destruct (Ascii.eqb c "%") eqn:E.
  - apply Ascii.eqb_eq in E. now subst c.
  - unfold _clean_expression. simpl.
    destruct (clean_keep c) eqn:K; [|reflexivity].
    simpl. rewrite E. simpl. now rewrite (clean_keep_not_caret _ K).
Qed.

(** X2: the three steps of the sanitizer amount to a map over the
    characters: [%] becomes [/100*], any other character of the class
    is copied, and a character outside the class is dropped; the
    sanitized form of a concatenation is the concatenation of the
    sanitized forms. *)
Theorem clean_expression_character_map :
  _clean_expression "" = ""
  /\ (forall c s,
        _clean_expression (String c s)
        = (if Ascii.eqb c "%" then "/100*"
           else if clean_keep c then String c "" else "")
          +:+ _clean_expression s)
  /\ (forall s t,
        _clean_expression (s +:+ t) = _clean_expression s +:+ _clean_expression t).
Proof.
  split; [reflexivity|]. split.
  - exact clean_expression_cons.
  - exact clean_expression_app.
Qed.

(** ** The function check *)

Lemma validate_functions_returns names :
  validate_functions names = Returns tt ->
  forall name, In name names -> is_Some (_safe_functions !! name).
Proof.
  induction names as [|n names IH]; intros Hv name Hin; [destruct Hin|].
  cbn [validate_functions] in Hv.
  destruct (_safe_functions !! n) as [f|] eqn:E; [|discriminate].
  destruct Hin as [<-|Hin]; [rewrite E; now exists f | auto].
Qed.

Lemma validate_functions_app_bad allowed bad rest :
  (forall name, In name allowed -> is_Some (_safe_functions !! name)) ->
  _safe_functions !! bad = None ->
  validate_functions (allowed ++ bad :: rest)%list = Raises (unknown_function bad).
Proof.
  intros Hall Hbad. induction allowed as [|n allowed IH].
  - cbn [app validate_functions]. now rewrite Hbad.
  - cbn [app validate_functions].
    destruct (Hall n) as [f ->]; [now left|].
    apply IH. intros name Hin. apply Hall. now right.
Qed.

(** X4: the check of lines 195-197 passes exactly when every name the
    pattern found is a key of the function table; otherwise the error
    names the first name of the list that is not a key, whatever comes
    after it. *)
Theorem function_check_exact (names : list string) :
  (validate_functions names = Returns tt
   <-> forall name, In name names -> is_Some (_safe_functions !! name))
  /\ (forall allowed bad rest,
        names = (allowed ++ bad :: rest)%list ->
        (forall name, In name allowed -> is_Some (_safe_functions !! name)) ->
        _safe_functions !! bad = None ->
        validate_functions names = Raises (unknown_function bad)).
Proof.
  split; [split|].
  - apply validate_functions_returns.
  - apply validate_functions_ok.
  - intros allowed bad rest -> Hall Hbad.
    now apply validate_functions_app_bad.
Qed.

Lemma function_check_exact_witness :
  validate_functions ["sqrt"; "foo"; "bar"] = Raises (unknown_function "foo").
Proof.
  destruct (function_check_exact ["sqrt"; "foo"; "bar"]) as [_ H].
  apply (H ["sqrt"] "foo" ["bar"]); [reflexivity | | reflexivity].
  intros name [<-|[]]. vm_compute. eauto.
Defined.

(** ** The function pattern *)

Section Pattern.

Lemma span_app_rest p s a c r t :
  span p s = (a, String c r) -> span p (s +:+ t) = (a, String c r +:+ t).
Proof.
  revert a. induction s as [|d s IH]; intros a; simpl; [discriminate|].
  rewrite append_cons. simpl. destruct (p d).
  - destruct (span p s) as [a' b'] eqn:E. intros [= <- ->].
    now rewrite (IH a' eq_refl).
  - intros [= <- <- <-]. reflexivity.
Qed.

Lemma append_empty_l t : "" +:+ t = t.
Proof. reflexivity. Qed.

Lemma span_all p s t :
  all_chars p s = true ->
  span p (s +:+ t) = (s +:+ fst (span p t), snd (span p t)).
Proof.
  induction s as [|d s IH]; simpl.
  - intros _. rewrite !append_empty_l. now destruct (span p t).
  - intros [Hd Hs]%andb_prop. rewrite Hd, (IH Hs). now rewrite append_cons.
Qed.

Lemma span_stop p c r : p c = false -> span p (String c r) = ("", String c r).
Proof. intros H. simpl. now rewrite H. Qed.

Lemma span_split p s : s = fst (span p s) +:+ snd (span p s).
Proof.
  induction s as [|d s IH]; simpl; [reflexivity|].
  destruct (p d); [|reflexivity].
  destruct (span p s) as [a b]. simpl in *. rewrite append_cons. now f_equal.
Qed.

Lemma span_prefix p s : all_chars p (fst (span p s)) = true.
Proof.
  induction s as [|d s IH]; simpl; [reflexivity|].
  destruct (p d) eqn:E; [|reflexivity].
  destruct (span p s) as [a b]. simpl in *. now rewrite E.
Qed.

Lemma span_rest_empty p s : snd (span p s) = "" -> all_chars p s = true.
Proof.
  intros H. rewrite (span_split p s), H, all_chars_app, span_prefix. reflexivity.
Qed.

Lemma space_not_ident c : Char.re_space c = true -> Char.ident_part c = false.
Proof. destruct c as [[] [] [] [] [] [] [] []]; vm_compute; congruence. Qed.

Lemma ident_start_part c : Char.ident_start c = true -> Char.ident_part c = true.
Proof. destruct c as [[] [] [] [] [] [] [] []]; vm_compute; congruence. Qed.

Lemma ident_start_not_space c : Char.ident_start c = true -> Char.re_space c = false.
Proof. destruct c as [[] [] [] [] [] [] [] []]; vm_compute; congruence. Qed.

Lemma ident_start_not_paren c : Char.ident_start c = true -> c <> "("%char.
Proof. intros H ->. discriminate. Qed.

Lemma append_empty_r s : s +:+ "" = s.
Proof. induction s as [|c s IH]; [reflexivity|]. now rewrite append_cons, IH. Qed.

Lemma span_stop_at p s :
  match s with String c _ => p c = false | EmptyString => True end ->
  span p s = ("", s).
Proof. destruct s as [|c r]; [reflexivity | apply span_stop]. Qed.

(** The pattern anchored at a name, optional white space and an opening
    parenthesis matches exactly that. *)
Lemma match_call_spaced name ws rest :
  identifier name = true -> all_chars Char.re_space ws = true ->
  match_call (name +:+ ws +:+ "(" +:+ rest) = Some (name, rest).
Proof.
  unfold identifier. destruct name as [|c n]; [discriminate|].
  intros [Hc Hn]%andb_prop Hws. simpl in Hc, Hn.
  apply andb_prop in Hn as [_ Hn].
  rewrite append_cons. unfold match_call. rewrite Hc.
  rewrite (span_all _ n _ Hn).
  rewrite (span_stop_at Char.ident_part (ws +:+ "(" +:+ rest)).
  2:{ destruct ws as [|w ws]; [reflexivity|].
      rewrite append_cons. simpl in Hws. apply andb_prop in Hws as [Hw _].
      now apply space_not_ident. }
  cbn [fst snd].
  rewrite (span_all _ ws _ Hws).
  rewrite (span_stop_at Char.re_space ("(" +:+ rest)); [|reflexivity].
  cbn [fst snd]. rewrite append_cons, append_empty_l.
  now rewrite append_empty_r.
Qed.

(** What is left after a match is a proper suffix of the text. *)
Lemma match_call_suffix s name after :
  match_call s = Some (name, after) ->
  exists matched, s = matched +:+ after /\ matched <> "".
Proof.
  destruct s as [|c r]; [discriminate|]. unfold match_call.
  destruct (Char.ident_start c); [|discriminate].
  pose proof (span_split Char.ident_part r) as Hr.
  destruct (span Char.ident_part r) as [a b]. cbn [fst snd] in Hr.
  pose proof (span_split Char.re_space b) as Hb.
  destruct (span Char.re_space b) as [sp q]. cbn [fst snd] in Hb.
  destruct q as [|y q]; [discriminate|].
  destruct (Ascii.eqb y "(") eqn:Ey.
  - apply Ascii.eqb_eq in Ey. subst y. intros [= <- <-].
    exists (String c (a +:+ sp +:+ "(")). split; [|discriminate].
    rewrite Hr, Hb, append_cons. f_equal.
    now rewrite !append_assoc.
  - destruct y as [[] [] [] [] [] [] [] []]; try discriminate.
Qed.

Lemma last_char_app s t : t <> "" -> last_char (s +:+ t) = last_char t.
Proof.
  intros Ht. induction s as [|c s IH]; [reflexivity|].
  rewrite append_cons. cbn [last_char]. rewrite IH.
  destruct (s +:+ t) eqn:E; [|reflexivity].
  destruct s, t; try discriminate; congruence.
Qed.

Lemma ends_outside_name_suffix s t :
  ends_outside_name (s +:+ t) = true -> ends_outside_name t = true.
Proof.
  destruct t as [|c t]; [reflexivity|].
  unfold ends_outside_name. now rewrite last_char_app.
Qed.

Lemma last_char_all p s c :
  all_chars p s = true -> last_char s = Some c -> p c = true.
Proof.
  induction s as [|d s IH]; [discriminate|].
  cbn [all_chars last_char]. intros [Hd Hs]%andb_prop.
  destruct s; [intros [= <-]; exact Hd | auto].
Qed.

Lemma last_char_some c s : exists d, last_char (String c s) = Some d.
Proof.
  revert c. induction s as [|e s IH]; intros c; [now exists c|].
  destruct (IH e) as [d Hd]. exists d. exact Hd.
Qed.

(** Text that ends outside a name does not consist of name characters. *)
Lemma ends_outside_name_rest c s :
  Char.ident_part c = true -> ends_outside_name (String c s) = true ->
  snd (span Char.ident_part s) <> "".
Proof.
  intros Hc Hend Hrest. apply span_rest_empty in Hrest.
  destruct (last_char_some c s) as [d Hd].
  unfold ends_outside_name in Hend. rewrite Hd in Hend.
  assert (Hall : all_chars Char.ident_part (String c s) = true).
  { simpl. now rewrite Hc, Hrest. }
  rewrite (last_char_all _ _ _ Hall Hd) in Hend. discriminate.
Qed.

(** A match inside [s] is not changed by text put after [s] when [s]
    ends outside a name and the text starts a name. *)
Lemma match_call_app s t :
  s <> "" -> ends_outside_name s = true -> starts_ident t = true ->
  match_call (s +:+ t)
  = match match_call s with
    | Some (name, after) => Some (name, after +:+ t)
    | None => None
    end.
Proof.
  destruct s as [|c r]; [congruence|]. intros _ Hend Ht.
  rewrite append_cons. unfold match_call.
  destruct (Char.ident_start c) eqn:Hc; [|reflexivity].
  pose proof (ends_outside_name_rest c r (ident_start_part _ Hc) Hend) as Hb.
  destruct (span Char.ident_part r) as [a b] eqn:Er. cbn [snd] in Hb.
  destruct b as [|x b]; [congruence|].
  rewrite (span_app_rest _ _ _ _ _ t Er).
  destruct (span Char.re_space (String x b)) as [sp q] eqn:Eb.
  destruct q as [|y q].
  - assert (Hsp : all_chars Char.re_space (String x b) = true).
    { apply span_rest_empty. now rewrite Eb. }
    rewrite (span_all _ _ t Hsp).
    destruct t as [|z t]; [discriminate|]. simpl in Ht.
    rewrite (span_stop _ z t (ident_start_not_space _ Ht)). cbn [fst snd].
    destruct z as [[] [] [] [] [] [] [] []]; try reflexivity; discriminate.
  - rewrite (span_app_rest _ _ _ _ _ t Eb). rewrite append_cons.
    destruct y as [[] [] [] [] [] [] [] []]; reflexivity.
Qed.

Lemma findall_calls_step fuel c r :
  findall_calls (S fuel) (String c r)
  = match match_call (String c r) with
    | Some (name, after) => name :: findall_calls fuel after
    | None => findall_calls fuel r
    end.
Proof. reflexivity. Qed.

(** A call that starts outside a name is found, wherever it stands. *)
Lemma findall_calls_finds name ws rest fuel before :
  identifier name = true -> all_chars Char.re_space ws = true ->
  ends_outside_name before = true ->
  (String.length (before +:+ name +:+ ws +:+ "(" +:+ rest) <= fuel)%nat ->
  In name (findall_calls fuel (before +:+ name +:+ ws +:+ "(" +:+ rest)).
Proof.
  intros Hname Hws.
  pose proof (match_call_spaced name ws rest Hname Hws) as Hcall.
  set (call := name +:+ ws +:+ "(" +:+ rest) in *.
  assert (Hstart : starts_ident call = true).
  { unfold call, identifier in *. destruct name; [discriminate|].
    rewrite append_cons. now apply andb_prop in Hname as [H _]. }
  revert before. induction fuel as [|fuel IH]; intros before Hend Hlen.
  - destruct call; [discriminate|]. rewrite length_app in Hlen. simpl in Hlen. lia.
  - destruct before as [|d b].
    + rewrite append_empty_l. destruct call as [|c r] eqn:Ecall; [discriminate|].
      rewrite findall_calls_step, Hcall. now left.
    + rewrite append_cons, findall_calls_step, <- append_cons.
      rewrite (match_call_app (String d b) call); [|discriminate|exact Hend|exact Hstart].
      rewrite length_app in Hlen. cbn [String.length] in Hlen.
      destruct (match_call (String d b)) as [[n after]|] eqn:Em.
      * right. destruct (match_call_suffix _ _ _ Em) as (matched & E & Hne).
        apply IH.
        -- rewrite E in Hend. now apply ends_outside_name_suffix in Hend.
        -- apply (f_equal String.length) in E. rewrite length_app in E.
           cbn [String.length] in E. rewrite length_app.
           destruct matched; [congruence|]. cbn [String.length] in E. lia.
      * apply IH.
        -- change (String d b) with (String d "" +:+ b) in Hend.
           now apply ends_outside_name_suffix in Hend.
        -- rewrite length_app. lia.
Qed.

End Pattern.

(** X5: a name followed by optional white space and an opening
    parenthesis is found by the pattern of line 191 wherever it stands
    in the expression, provided the text before it does not end in a
    name character; when that name is not a key of the function table,
    evaluation fails on the function check, for every host and every
    variable mapping, with the error that names a function that is not
    a key. *)
Theorem unknown_call_is_rejected (before name spaces rest : string) :
  ends_outside_name before = true ->
  identifier name = true ->
  all_chars Char.re_space spaces = true ->
  In name (function_pattern_findall (before +:+ name +:+ spaces +:+ "(" +:+ rest))
  /\ (_safe_functions !! name = None ->
      exists bad,
        _safe_functions !! bad = None
        /\ forall h variables,
             _evaluate_expression h
               (before +:+ name +:+ spaces +:+ "(" +:+ rest) variables
             = Raises (unknown_function bad)).
Proof.
  intros Hend Hname Hws.
  assert (Hin : In name (function_pattern_findall
                           (before +:+ name +:+ spaces +:+ "(" +:+ rest))).
  { unfold function_pattern_findall. now apply findall_calls_finds. }
  split; [exact Hin|]. intros Hnone.
  destruct (validate_functions_first
              (function_pattern_findall
                 (before +:+ name +:+ spaces +:+ "(" +:+ rest)))
    as (bad & Hbad & Hnone' & Hv); [now exists name|].
  exists bad. split; [exact Hnone'|]. intros h variables.
  unfold _evaluate_expression.
  now rewrite (findall_not_simple _ _ Hbad), Hv.
Qed.

Lemma unknown_call_is_rejected_witness :
  In "foo" (function_pattern_findall ("1 + " +:+ "foo" +:+ " " +:+ "(" +:+ "2)"))
  /\ (_safe_functions !! "foo" = None ->
      exists bad,
        _safe_functions !! bad = None
        /\ forall h variables,
             _evaluate_expression h
               ("1 + " +:+ "foo" +:+ " " +:+ "(" +:+ "2)") variables
             = Raises (unknown_function bad)).
Proof.
  apply (unknown_call_is_rejected "1 + " "foo" " " "2)"); reflexivity.
Defined.

(** ** Expressions without a call *)

Lemma match_call_needs_paren s :
  all_chars (fun c => negb (Ascii.eqb c "(")) s = true -> match_call s = None.
Proof.
  destruct s as [|c r]; [reflexivity|]. intros Hs. unfold match_call.
  destruct (Char.ident_start c); [|reflexivity].
  simpl in Hs. apply andb_prop in Hs as [_ Hr].
  rewrite (span_split Char.ident_part r), all_chars_app in Hr.
  destruct (span Char.ident_part r) as [a b]. cbn [fst snd] in Hr.
  apply andb_prop in Hr as [_ Hb].
  rewrite (span_split Char.re_space b), all_chars_app in Hb.
  destruct (span Char.re_space b) as [sp q]. cbn [fst snd] in Hb.
  apply andb_prop in Hb as [_ Hq].
  destruct q as [|y q]; [reflexivity|].
  simpl in Hq. apply andb_prop in Hq as [Hy _].
  destruct y as [[] [] [] [] [] [] [] []]; try reflexivity; discriminate.
Qed.

Lemma findall_calls_needs_paren fuel s :
  all_chars (fun c => negb (Ascii.eqb c "(")) s = true ->
  findall_calls fuel s = [].
Proof.
  revert s. induction fuel as [|fuel IH]; intros s Hs; [reflexivity|].
  destruct s as [|c r]; [reflexivity|].
  rewrite findall_calls_step, (match_call_needs_paren _ Hs).
  apply IH. simpl in Hs. now apply andb_prop in Hs as [_ Hr].
Qed.

(** X6: an expression without an opening parenthesis holds no call for
    the pattern of line 191: no name in it is checked against the
    function table, and unless it is simple arithmetic it goes to [eval]
    with the full namespace, which alone decides what its names mean. *)
Theorem names_without_call_unchecked (h : Host) (expression : string)
    (variables : gmap string value) :
  all_chars (fun c => negb (Ascii.eqb c "(")) expression = true ->
  simple_arithmetic expression = false ->
  function_pattern_findall expression = []
  /\ _evaluate_expression h expression variables
     = (result ← h_eval h expression (safe_env variables);
        shown ← py_str h result;
        Returns (result,
                 ["Evaluating expression: " +:+ expression;
                  "Result: " +:+ shown])).
Proof.
  intros Hparen Hsimple.
  assert (Hnone : function_pattern_findall expression = []).
  { now apply findall_calls_needs_paren. }
  split; [exact Hnone|].
  unfold _evaluate_expression. now rewrite Hsimple, Hnone.
Qed.

Lemma names_without_call_unchecked_witness :
  function_pattern_findall "foo + 1" = []
  /\ _evaluate_expression cpython_3_11 "foo + 1" ∅
     = (result ← h_eval cpython_3_11 "foo + 1" (safe_env ∅);
        shown ← py_str cpython_3_11 result;
        Returns (result,
                 ["Evaluating expression: " +:+ "foo + 1";
                  "Result: " +:+ shown])).
Proof.
  apply (names_without_call_unchecked cpython_3_11 "foo + 1" ∅); reflexivity.
Defined.

(** X7: the fast path of lines 183-188 leaves out the function check,
    and loses nothing by it: in an expression that is simple arithmetic
    the pattern of line 191 finds no call, so the check would pass. *)
Theorem fast_path_skips_no_call (expression : string) :
  simple_arithmetic expression = true ->
  function_pattern_findall expression = []
  /\ validate_functions (function_pattern_findall expression) = Returns tt.
Proof.
  intros Hsimple.
  assert (Hnone : function_pattern_findall expression = []).
  { destruct (function_pattern_findall expression) as [|name names] eqn:E;
      [reflexivity|].
    assert (Hin : In name (function_pattern_findall expression))
      by (rewrite E; now left).
    apply findall_not_simple in Hin. congruence. }
  now rewrite Hnone.
Qed.

Lemma fast_path_skips_no_call_witness :
  function_pattern_findall "(2 + 3) * 4" = []
  /\ validate_functions (function_pattern_findall "(2 + 3) * 4") = Returns tt.
Proof. apply (fast_path_skips_no_call "(2 + 3) * 4"). reflexivity. Defined.

(** ** What a successful evaluation is made of *)

(** X8: when [_evaluate_expression] returns, the result is what [eval]
    returned for the expression, in the namespace with nothing but an
    empty [__builtins__] when the expression is simple arithmetic, and
    otherwise in the full namespace after every name the pattern found
    was seen to be a key of the function table; and the steps are two
    lines, the first with the expression and the second with [str] of
    the result. *)
Theorem evaluation_success_anatomy (h : Host) (expression : string)
    (variables : gmap string value) (result : value) (steps : list string) :
  _evaluate_expression h expression variables = Returns (result, steps) ->
  exists shown,
    py_str h result = Returns shown
    /\ ((simple_arithmetic expression = true
         /\ h_eval h expression no_builtins = Returns result
         /\ steps = ["Evaluating arithmetic expression: " +:+ expression;
                     "Result: " +:+ shown])
        \/ (simple_arithmetic expression = false
            /\ (forall name, In name (function_pattern_findall expression) ->
                  is_Some (_safe_functions !! name))
            /\ h_eval h expression (safe_env variables) = Returns result
            /\ steps = ["Evaluating expression: " +:+ expression;
                        "Result: " +:+ shown])).
Proof.
  unfold _evaluate_expression.
  destruct (simple_arithmetic expression) eqn:Hs.
  - destruct (h_eval h expression no_builtins) as [r|] eqn:He; cbn; [|discriminate].
    destruct (py_str h r) as [shown|] eqn:Hp; cbn; [|discriminate].
    intros [= <- <-]. exists shown. split; [exact Hp|]. left. auto.
  - destruct (validate_functions _) as [[]|] eqn:Hv; cbn; [|discriminate].
    destruct (h_eval h expression (safe_env variables)) as [r|] eqn:He; cbn;
      [|discriminate].
    destruct (py_str h r) as [shown|] eqn:Hp; cbn; [|discriminate].
    intros [= <- <-]. exists shown. split; [exact Hp|]. right.
    repeat split; auto. now apply validate_functions_returns.
Qed.

Lemma evaluation_success_anatomy_witness :
  exists shown,
    py_str cpython_3_11 (VFloat 4) = Returns shown
    /\ ((simple_arithmetic "sqrt(16)" = true
         /\ h_eval cpython_3_11 "sqrt(16)" no_builtins = Returns (VFloat 4)
         /\ ["Evaluating expression: sqrt(16)"; "Result: 4.0"]
            = ["Evaluating arithmetic expression: " +:+ "sqrt(16)";
               "Result: " +:+ shown])
        \/ (simple_arithmetic "sqrt(16)" = false
            /\ (forall name, In name (function_pattern_findall "sqrt(16)") ->
                  is_Some (_safe_functions !! name))
            /\ h_eval cpython_3_11 "sqrt(16)" (safe_env ∅) = Returns (VFloat 4)
            /\ ["Evaluating expression: sqrt(16)"; "Result: 4.0"]
               = ["Evaluating expression: " +:+ "sqrt(16)";
                  "Result: " +:+ shown])).
Proof.
  apply (evaluation_success_anatomy cpython_3_11 "sqrt(16)" ∅).
  vm_compute. reflexivity.
Defined.

(** ** The tool as a whole *)

Lemma try_block_returns h parsed out :
  try_block h parsed = Returns out ->
  exists result steps formatted,
    _evaluate_expression h
      (_clean_expression (CalculatorInput.expression parsed))
      (prepare_variables (CalculatorInput.variables parsed))
    = Returns (result, steps)
    /\ format_result h result (CalculatorInput.precision parsed)
       = Returns formatted
    /\ h_validate_result h result = Some (CalculatorOutput.result out)
    /\ out = CalculatorOutput.Build (CalculatorOutput.result out) formatted
               (Some steps) None.
Proof.
  unfold try_block.
  destruct (_evaluate_expression _ _ _) as [[result steps]|] eqn:He; cbn;
    [|discriminate].
  destruct (format_result h result _) as [formatted|] eqn:Hf; cbn;
    [|discriminate].
  unfold build_output.
  destruct (h_validate_result h result) as [v|] eqn:Hv; [|discriminate].
  intros [= <-]. exists result, steps, formatted. cbn. auto.
Qed.

(** X10: on an interpreter whose [int] has no method [is_integer]
    (CPython before 3.12, which covers every version the package
    declares), a call whose expression evaluates to an [int] does not
    return that result: line 121 raises and the tool answers with the
    error output. *)
Theorem int_result_needs_is_integer (h : Host) (parsed : CalculatorInput.t)
    (z : Z) (steps : list string) :
  h_int_is_integer h = false ->
  _evaluate_expression h
    (_clean_expression (CalculatorInput.expression parsed))
    (prepare_variables (CalculatorInput.variables parsed))
  = Returns (VInt z, steps) ->
  try_except h parsed
  = Returns (error_output "'int' object has no attribute 'is_integer'").
Proof.
  intros Hno Heval. unfold try_except, try_block. rewrite Heval. cbn.
  rewrite Hno. cbn. apply except_block_returns.
Qed.

Lemma int_result_needs_is_integer_witness :
  try_except cpython_3_11 (CalculatorInput.Build "2 + 3" (Some 6) None)
  = Returns (error_output "'int' object has no attribute 'is_integer'").
Proof.
  apply (int_result_needs_is_integer cpython_3_11
           (CalculatorInput.Build "2 + 3" (Some 6) None) 5
           ["Evaluating arithmetic expression: 2 + 3"; "Result: 5"]);
    vm_compute; reflexivity.
Defined.

Lemma evaluation_success_shape h expression variables result steps :
  _evaluate_expression h expression variables = Returns (result, steps) ->
  exists line1 line2, steps = [line1; line2].
Proof.
  unfold _evaluate_expression.
  destruct (simple_arithmetic expression).
  - destruct (h_eval h expression no_builtins) as [r|]; cbn; [|discriminate].
    destruct (py_str h r) as [shown|]; cbn; [|discriminate].
    intros [= <- <-]. eauto.
  - destruct (validate_functions _) as [[]|]; cbn; [|discriminate].
    destruct (h_eval h expression (safe_env variables)) as [r|]; cbn;
      [|discriminate].
    destruct (py_str h r) as [shown|]; cbn; [|discriminate].
    intros [= <- <-]. eauto.
Qed.

(** X11: every answer of the tool is of one of two kinds.  Either it is
    the error output: [result] and [formatted_result] are "Error",
    there are no steps, and [error] is a message.  Or it comes from an
    evaluation that returned: [result] is the evaluated value as the
    output model took it, [formatted_result] its rendering under the
    requested precision, [steps] the two lines of the evaluation, and
    there is no error. *)
Theorem output_kinds (h : Host) (input_data : gmap string pyobj)
    (out : CalculatorOutput.t) :
  calculator_tool h input_data = Returns out ->
  (exists message, out = error_output message)
  \/ (exists parsed result line1 line2 formatted,
        parse_input h input_data = Returns parsed
        /\ _evaluate_expression h
             (_clean_expression (CalculatorInput.expression parsed))
             (prepare_variables (CalculatorInput.variables parsed))
           = Returns (result, [line1; line2])
        /\ format_result h result (CalculatorInput.precision parsed)
           = Returns formatted
        /\ h_validate_result h result = Some (CalculatorOutput.result out)
        /\ out = CalculatorOutput.Build (CalculatorOutput.result out)
                   formatted (Some [line1; line2]) None).
Proof.
  unfold calculator_tool.
  destruct (parse_input h input_data) as [parsed|] eqn:Hp; cbn; [|discriminate].
  unfold try_except. destruct (try_block h parsed) as [o|e] eqn:Ht.
  - intros [= <-]. right.
    apply try_block_returns in Ht as (result & steps & formatted & He & Hf & Hv & Ho).
    destruct (evaluation_success_shape _ _ _ _ _ He) as (l1 & l2 & ->).
    exists parsed, result, l1, l2, formatted. auto.
  - destruct (is_exception (exn_class_of e)); [|discriminate].
    rewrite except_block_returns. intros [= <-]. left. eauto.
Qed.

Lemma output_kinds_witness :
  (exists message, error_output "division by zero" = error_output message)
  \/ (exists parsed result line1 line2 formatted,
        parse_input cpython_3_11 {["expression" := PStr "1/0"]} = Returns parsed
        /\ _evaluate_expression cpython_3_11
             (_clean_expression (CalculatorInput.expression parsed))
             (prepare_variables (CalculatorInput.variables parsed))
           = Returns (result, [line1; line2])
        /\ format_result cpython_3_11 result (CalculatorInput.precision parsed)
           = Returns formatted
        /\ h_validate_result cpython_3_11 result
           = Some (CalculatorOutput.result (error_output "division by zero"))
        /\ error_output "division by zero"
           = CalculatorOutput.Build
               (CalculatorOutput.result (error_output "division by zero"))
               formatted (Some [line1; line2]) None).
Proof.
  apply (output_kinds cpython_3_11 {["expression" := PStr "1/0"]}).
  vm_compute. reflexivity.
Defined.

(** ** Variables, constants and functions in the namespace *)

Lemma prepare_variables_union (given : option (gmap string float)) :
  prepare_variables given
  = (VFloat <$> default ∅ given) ∪ (VFloat <$> _safe_constants).
Proof.
  unfold prepare_variables, dict_update.
  generalize _safe_constants. intros cs.
  destruct given as [vs|]; cbn [from_option id].
  - case_bool_decide as Hsize.
    + apply map_size_empty_iff in Hsize. subst vs.
      now rewrite fmap_empty, (right_id_L ∅ (∪)), (left_id_L ∅ (∪)).
    + now rewrite (right_id_L ∅ (∪)).
  - now rewrite fmap_empty, (right_id_L ∅ (∪)), (left_id_L ∅ (∪)).
Qed.

(** X12: the variables handed to the evaluation are the constants with
    the caller's variables written over them; an empty mapping of
    variables gives the same variables as no mapping. *)
Theorem empty_variables_as_none :
  (forall given,
      prepare_variables given
      = (VFloat <$> default ∅ given) ∪ (VFloat <$> _safe_constants))
  /\ prepare_variables (Some ∅) = prepare_variables None.
Proof.
  split; [exact prepare_variables_union|].
  now rewrite !prepare_variables_union.
Qed.

Lemma functions_not_constants name f :
  _safe_functions !! name = Some f -> _safe_constants !! name = None.
Proof.
  intros Hf. destruct (_safe_constants !! name) as [c|] eqn:Hc; [|reflexivity].
  exfalso. unfold _safe_constants in Hc.
  apply elem_of_list_to_map_2 in Hc.
  repeat (apply elem_of_cons in Hc as [Hc|Hc];
          [injection Hc as -> _; vm_compute in Hf; discriminate|]).
  now apply elem_of_nil in Hc.
Qed.

(** X13: unless the caller has a variable of that name, a key of the
    function table resolves in the namespace of [eval] to its function
    and the name of a constant to that constant: the two tables share no
    name and neither binds [__builtins__]. *)
Theorem names_resolve_to_tables (given : option (gmap string float))
    (name : string) :
  default ∅ given !! name = None ->
  (forall f, _safe_functions !! name = Some f ->
     safe_env (prepare_variables given) !! name = Some f
     /\ _safe_constants !! name = None /\ name <> "__builtins__")
  /\ (forall c, _safe_constants !! name = Some c ->
        safe_env (prepare_variables given) !! name = Some (VFloat c)
        /\ _safe_functions !! name = None /\ name <> "__builtins__").
Proof.
  intros Hvar. split.
  - intros f Hf. pose proof (functions_not_constants _ _ Hf) as Hc.
    rewrite safe_env_lookup, Hvar, Hc, Hf.
    split; [reflexivity|]. split; [reflexivity|].
    intros ->. vm_compute in Hf. discriminate.
  - intros c Hc. rewrite safe_env_lookup, Hvar, Hc.
    split; [reflexivity|]. split.
    + destruct (_safe_functions !! name) as [f|] eqn:Hf; [|reflexivity].
      apply functions_not_constants in Hf. congruence.
    + intros ->. vm_compute in Hc. discriminate.
Qed.

Lemma names_resolve_to_tables_witness :
  (forall f, _safe_functions !! "sqrt" = Some f ->
     safe_env (prepare_variables (Some {["x" := 1%float]})) !! "sqrt" = Some f
     /\ _safe_constants !! "sqrt" = None /\ "sqrt" <> "__builtins__")
  /\ (forall c, _safe_constants !! "sqrt" = Some c ->
        safe_env (prepare_variables (Some {["x" := 1%float]})) !! "sqrt"
        = Some (VFloat c)
        /\ _safe_functions !! "sqrt" = None /\ "sqrt" <> "__builtins__").
Proof.
  apply (names_resolve_to_tables (Some {["x" := 1%float]}) "sqrt").
  reflexivity.
Defined.

(** * The tool registry *)

Lemma get_tools_fold enabled tools :
  fold_left get_tools_step enabled tools
  = (tools ++ flat_map entries_of enabled)%list.
Proof.
  revert tools. induction enabled as [|n enabled IH]; intros tools.
  - simpl. now rewrite app_nil_r.
  - cbn [fold_left flat_map]. rewrite IH. unfold get_tools_step, entries_of.
    destruct (dict_get _TOOLS n); [|reflexivity].
    unfold list_append. now rewrite <- app_assoc.
Qed.

Lemma get_tools_flat_map enabled :
  get_tools enabled = flat_map entries_of enabled.
Proof. unfold get_tools. now rewrite get_tools_fold. Qed.

(** Every binding of the registry carries its own key as [name]. *)
Lemma registry_lookup n :
  match dict_get _TOOLS n with
  | Some info =>
      ToolInfo.name info = n
      /\ existsb (String.eqb n) get_available_tools = true
  | None => existsb (String.eqb n) get_available_tools = false
  end.
Proof.
  unfold get_available_tools, _TOOLS.
  cbn [dict_get List.map fst existsb].
  destruct (String.eqb_spec n "echo") as [->|_]; [split; reflexivity|].
  destruct (String.eqb_spec n "weather") as [->|_]; [split; reflexivity|].
  destruct (String.eqb_spec n "calculator") as [->|_]; [split; reflexivity|].
  reflexivity.
Qed.

(** X14: [get_tools] answers with the registered tools among the
    enabled names, in the order of the enabled names: a name that is
    not registered is passed over, a name enabled twice is answered
    twice, and enabling two lists one after the other gives the two
    answers one after the other.  Enabling every available tool gives
    the whole registry. *)
Theorem get_tools_in_order :
  (forall enabled,
      List.map ToolInfo.name (get_tools enabled)
      = List.filter (fun n => existsb (String.eqb n) get_available_tools) enabled)
  /\ (forall enabled more,
        get_tools (enabled ++ more) = (get_tools enabled ++ get_tools more)%list)
  /\ get_tools get_available_tools = List.map snd _TOOLS.
Proof.
  split; [|split].
  - intros enabled. rewrite get_tools_flat_map.
    induction enabled as [|n enabled IH]; [reflexivity|].
    cbn [flat_map List.filter]. rewrite map_app, IH.
    pose proof (registry_lookup n) as Hn. unfold entries_of.
    destruct (dict_get _TOOLS n) as [info|].
    + destruct Hn as [Hname ->]. cbn [List.map app]. now rewrite Hname.
    + rewrite Hn. reflexivity.
  - intros enabled more. rewrite !get_tools_flat_map. apply flat_map_app.
  - reflexivity.
Qed.

(** X15: a tool is in the answer of [get_tools] exactly when its name is
    enabled and the registry binds that name to it; so the calculator
    is served exactly when the name "calculator" is enabled, and what
    is served under that name is [calculator_tool]. *)
Theorem tool_served_iff_enabled (enabled : list string) :
  (forall info,
      In info (get_tools enabled)
      <-> In (ToolInfo.name info) enabled
          /\ dict_get _TOOLS (ToolInfo.name info) = Some info)
  /\ ((exists info, In info (get_tools enabled)
                    /\ ToolInfo.function info = CalculatorTool)
      <-> In "calculator" enabled).
Proof.
  assert (Hiff : forall info,
             In info (get_tools enabled)
             <-> In (ToolInfo.name info) enabled
                 /\ dict_get _TOOLS (ToolInfo.name info) = Some info).
  { intros info. rewrite get_tools_flat_map, in_flat_map. split.
    - intros (n & Hn & Hin). unfold entries_of in Hin.
      pose proof (registry_lookup n) as Hl.
      destruct (dict_get _TOOLS n) as [i|] eqn:E; [|destruct Hin].
      destruct Hin as [<-|[]]. destruct Hl as [Hname _].
      rewrite Hname. auto.
    - intros [Hin Hget]. exists (ToolInfo.name info). split; [exact Hin|].
      unfold entries_of. rewrite Hget. now left. }
  split; [exact Hiff|]. split.
  - intros (info & Hin & Hfun). apply Hiff in Hin as [Hin Hget].
    unfold _TOOLS in Hget. cbn [dict_get] in Hget.
    destruct (String.eqb_spec (ToolInfo.name info) "echo") as [E|_].
    { injection Hget as <-. discriminate. }
    destruct (String.eqb_spec (ToolInfo.name info) "weather") as [E|_].
    { injection Hget as <-. discriminate. }
    destruct (String.eqb_spec (ToolInfo.name info) "calculator") as [E|_];
      [|discriminate].
    now rewrite <- E.
  - intros Hin.
    exists (ToolInfo.Build CalculatorTool "calculator"
              "Evaluates mathematical expressions and performs calculations").
    split; [|reflexivity]. apply Hiff. split; [exact Hin | reflexivity].
Qed.

(** * Defaults of the input model *)

(** X16: a call that gives the expression alone is a call with
    precision 6 and without variables (the defaults of lines 23-30). *)
Theorem defaults_applied (h : Host) (expression : string) :
  h_validate_str h (PStr expression) = Some expression ->
  parse_input h {["expression" := PStr expression]}
  = Returns (CalculatorInput.Build expression (Some 6) None)
  /\ calculator_tool h {["expression" := PStr expression]}
     = try_except h (CalculatorInput.Build expression (Some 6) None).
Proof.
  intros Hstr.
  assert (Hp : parse_input h {["expression" := PStr expression]}
               = Returns (CalculatorInput.Build expression (Some 6) None)).
  { unfold parse_input, field_expression, field_precision, field_variables.
    rewrite lookup_singleton_eq, Hstr.
    rewrite !lookup_singleton_ne by discriminate. reflexivity. }
  split; [exact Hp|]. unfold calculator_tool. now rewrite Hp.
Qed.

Lemma defaults_applied_witness :
  parse_input cpython_3_12 {["expression" := PStr "1 + 1"]}
  = Returns (CalculatorInput.Build "1 + 1" (Some 6) None)
  /\ calculator_tool cpython_3_12 {["expression" := PStr "1 + 1"]}
     = try_except cpython_3_12 (CalculatorInput.Build "1 + 1" (Some 6) None).
Proof. apply (defaults_applied cpython_3_12 "1 + 1"). reflexivity. Defined.

(** * What the function pattern reports *)

(** A match of the anchored pattern is a name, white space and an
    opening parenthesis, and nothing else. *)
Lemma match_call_shape s name after :
  match_call s = Some (name, after) ->
  identifier name = true
  /\ exists spaces,
       all_chars Char.re_space spaces = true
       /\ s = name +:+ spaces +:+ "(" +:+ after.
Proof.
  destruct s as [|c r]; [discriminate|]. unfold match_call.
  destruct (Char.ident_start c) eqn:Hc; [|discriminate].
  pose proof (span_split Char.ident_part r) as Hr.
  pose proof (span_prefix Char.ident_part r) as Ha.
  destruct (span Char.ident_part r) as [a b]. cbn [fst snd] in Hr, Ha.
  pose proof (span_split Char.re_space b) as Hb.
  pose proof (span_prefix Char.re_space b) as Hsp.
  destruct (span Char.re_space b) as [sp q]. cbn [fst snd] in Hb, Hsp.
  destruct q as [|y q]; [discriminate|].
  destruct (Ascii.eqb y "(") eqn:Ey.
  - apply Ascii.eqb_eq in Ey. subst y. intros [= <- <-]. split.
    + unfold identifier. simpl. now rewrite Hc, (ident_start_part _ Hc), Ha.
    + exists sp. split; [exact Hsp|]. rewrite Hr, Hb, append_cons. reflexivity.
  - destruct y as [[] [] [] [] [] [] [] []]; try discriminate.
Qed.

Lemma findall_calls_sound fuel s name :
  In name (findall_calls fuel s) ->
  identifier name = true
  /\ exists before spaces rest,
       all_chars Char.re_space spaces = true
       /\ s = before +:+ name +:+ spaces +:+ "(" +:+ rest.
Proof.
  revert s. induction fuel as [|fuel IH]; intros s; [intros []|].
  destruct s as [|c r]; [intros []|]. rewrite findall_calls_step.
  destruct (match_call (String c r)) as [[n after]|] eqn:Em.
  - destruct (match_call_shape _ _ _ Em) as (Hid & sp & Hsp & Es).
    intros [<-|Hin].
    + split; [exact Hid|]. exists "", sp, after. auto.
    + destruct (IH _ Hin) as (Hid' & before & sp' & rest & Hsp' & Ea).
      split; [exact Hid'|].
      exists (n +:+ sp +:+ "(" +:+ before), sp', rest. split; [exact Hsp'|].
      rewrite Es, Ea, !append_assoc. reflexivity.
  - intros Hin. destruct (IH _ Hin) as (Hid & before & sp & rest & Hsp & Er).
    split; [exact Hid|]. exists (String c before), sp, rest.
    split; [exact Hsp|]. rewrite Er. now rewrite append_cons.
Qed.

(** X17: every name the function check looks up is a name of the
    expression: one of [a-zA-Z_] followed by characters of
    [a-zA-Z0-9_], standing in the expression before optional white
    space and an opening parenthesis.  The anchored pattern matches
    exactly such a text. *)
Theorem function_pattern_sound :
  (forall expression name,
      In name (function_pattern_findall expression) ->
      identifier name = true
      /\ exists before spaces rest,
           all_chars Char.re_space spaces = true
           /\ expression = before +:+ name +:+ spaces +:+ "(" +:+ rest)
  /\ (forall s name after,
        match_call s = Some (name, after)
        <-> identifier name = true
            /\ exists spaces,
                 all_chars Char.re_space spaces = true
                 /\ s = name +:+ spaces +:+ "(" +:+ after).
Proof.
  split.
  - intros expression name. apply findall_calls_sound.
  - intros s name after. split; [apply match_call_shape|].
    intros (Hid & sp & Hsp & ->). now apply match_call_spaced.
Qed.

Lemma function_pattern_sound_witness :
  identifier "max" = true
  /\ exists before spaces rest,
       all_chars Char.re_space spaces = true
       /\ "1 + max (2, 3)" = before +:+ "max" +:+ spaces +:+ "(" +:+ rest.
Proof.
  destruct function_pattern_sound as [H _].
  apply (H "1 + max (2, 3)" "max"). vm_compute. auto.
Defined.
